(** * Selenium-MCP: the tab-addressable session layer of [main.py]

    A shallow embedding of class [FirefoxAutoBrowser] and of the tool
    functions registered on the MCP server, followed by the properties of
    the result envelope, of tab resolution and of session invalidation.

    The remote browser (Selenium's [webdriver.Remote]) is not part of the
    program.  It is a parameter of the development: a record of transition
    functions over an arbitrary state, every one of which may return a
    value or raise.  The methods of the class are written in a small
    state-and-exception monad over the instance attribute [self.driver]. *)

From Stdlib Require Import ZArith String List Ascii Bool Lia DecimalString.
Import ListNotations.

Set Warnings "-register-all".

Local Open Scope Z_scope.
Local Open Scope list_scope.
Local Open Scope string_scope.

(** ** Python values *)

(** The values that reach the tools as arguments and that the envelopes
    carry: what [json.loads] produces, floats left out.  A [dict] is kept
    in insertion order, the order [json.dumps] writes. *)
Inductive pyval : Type :=
| PyNone
| PyBool (b : bool)
| PyInt (z : Z)
| PyStr (s : string)
| PyList (l : list pyval)
| PyDict (d : list (string * pyval)).

(** [str(n)] on an [int]. *)
Definition string_of_Z (z : Z) : string :=
  NilZero.string_of_int (Z.to_int z).

Definition newline : string := String (ascii_of_nat 10) EmptyString.

(** [d[k] = v] on an insertion-ordered dict. *)
Fixpoint dict_set (k : string) (v : pyval) (d : list (string * pyval))
  : list (string * pyval) :=
  match d with
  | [] => [(k, v)]
  | (k', v') :: d' =>
      if String.eqb k k' then (k, v) :: d' else (k', v') :: dict_set k v d'
  end.

(** [d.get(k)]. *)
Fixpoint dict_get (k : string) (d : list (string * pyval)) : option pyval :=
  match d with
  | [] => None
  | (k', v') :: d' => if String.eqb k k' then Some v' else dict_get k d'
  end.

(** Field access on a value that is expected to be a dict. *)
Definition field (k : string) (v : pyval) : option pyval :=
  match v with
  | PyDict d => dict_get k d
  | _ => None
  end.

(** Truth value testing, as in [if not x]. *)
Definition truthy (v : pyval) : bool :=
  match v with
  | PyNone => false
  | PyBool b => b
  | PyInt z => negb (Z.eqb z 0)
  | PyStr s => negb (String.eqb s EmptyString)
  | PyList l => match l with [] => false | _ => true end
  | PyDict d => match d with [] => false | _ => true end
  end.

(** [isinstance(v, int)]: [bool] is a subclass of [int]; the payload is
    the integer the value stands for in comparisons and indexing. *)
Definition as_int (v : pyval) : option Z :=
  match v with
  | PyInt z => Some z
  | PyBool true => Some 1
  | PyBool false => Some 0
  | _ => None
  end.

(** [isinstance(v, str)]. *)
Definition as_str (v : pyval) : option string :=
  match v with
  | PyStr s => Some s
  | _ => None
  end.

(** [x in l] on a list of strings. *)
Fixpoint str_in (x : string) (l : list string) : bool :=
  match l with
  | [] => false
  | y :: l' => String.eqb x y || str_in x l'
  end.

(** [l.index(x)]. *)
Fixpoint index_of (x : string) (l : list string) : option nat :=
  match l with
  | [] => None
  | y :: l' =>
      if String.eqb x y then Some O
      else match index_of x l' with Some n => Some (S n) | None => None end
  end.

(** [needle in hay] on strings. *)
Fixpoint is_substring (needle hay : string) : bool :=
  prefix needle hay ||
  match hay with
  | EmptyString => false
  | String _ hay' => is_substring needle hay'
  end.

(** [len(l)] and [len(s)] as Python integers. *)
Definition len {A} (l : list A) : Z := Z.of_nat (List.length l).
Definition strlen (s : string) : Z := Z.of_nat (String.length s).

(** [handle[:20] + "..."]. *)
Definition abbr (handle : string) : string := substring 0 20 handle ++ "...".

Section Formatting.

(** [repr] on a [str] is a builtin of the interpreter; it only matters
    where a container or a missing list item is printed. *)
Variable repr_str : string -> string.

Fixpoint py_repr (v : pyval) : string :=
  match v with
  | PyNone => "None"
  | PyBool true => "True"
  | PyBool false => "False"
  | PyInt z => string_of_Z z
  | PyStr s => repr_str s
  | PyList l => "[" ++ String.concat ", " (map py_repr l) ++ "]"
  | PyDict d =>
      "{" ++ String.concat ", "
               (map (fun kv => match kv with
                               | (k, x) => repr_str k ++ ": " ++ py_repr x
                               end) d) ++ "}"
  end.

(** What an f-string writes for [{v}]. *)
Definition py_str (v : pyval) : string :=
  match v with
  | PyStr s => s
  | _ => py_repr v
  end.

End Formatting.

(** ** Exceptions *)

Inductive exn_class : Type :=
| Exception
| TypeError
| ValueError
| IndexError
| AttributeError
| WebDriverException
| TimeoutException
| NoSuchElementException
| NoSuchWindowException.

(** An exception object: its class and the text [str(e)] returns. *)
Record exn : Type := mkExn { exn_cls : exn_class; exn_str : string }.

(** [issubclass(c, d)] for the classes above. *)
Definition subclass (c d : exn_class) : bool :=
  match d, c with
  | Exception, _ => true
  | WebDriverException,
    (WebDriverException | TimeoutException
     | NoSuchElementException | NoSuchWindowException) => true
  | TypeError, TypeError => true
  | ValueError, ValueError => true
  | IndexError, IndexError => true
  | AttributeError, AttributeError => true
  | TimeoutException, TimeoutException => true
  | NoSuchElementException, NoSuchElementException => true
  | NoSuchWindowException, NoSuchWindowException => true
  | _, _ => false
  end.

Definition isinstance (e : exn) (c : exn_class) : bool :=
  subclass (exn_cls e) c.

(** [str] of a Selenium exception built from a bare message. *)
Definition selenium_str (msg : string) : string :=
  "Message: " ++ msg ++ newline.

(** ** The result envelope *)

Record envelope : Type := mkEnvelope {
  code : Z;
  status : string;
  message : string;
  detail : pyval;
  data : pyval
}.

(** ** The browser engine *)

Inductive By : Type :=
| By_ID | By_XPATH | By_NAME | By_CLASS_NAME
| By_CSS_SELECTOR | By_TAG_NAME | By_LINK_TEXT | By_PARTIAL_LINK_TEXT.

(** A [WebElement] reference. *)
Definition element : Type := nat.

(** The truth value of a [WebElement]: the class defines neither
    [__bool__] nor [__len__], so every element is truthy. *)
Definition element_truthy (el : element) : bool := true.

Definition outcome (A : Type) : Type := (exn + A)%type.

(** The commands the program sends to the driver. *)
Inductive call : Type :=
| CWindowHandles
| CCurrentWindowHandle
| CSwitchToWindow (handle : string)
| CGet (url : string)
| CPageSource
| CExecuteScript (script : string) (args : list element)
| CFindElement (by_ : By) (value : string)
| CClick (el : element)
| CClose
| CQuit.

(** One command as it happened: what was sent and whether it raised. *)
Record event : Type := mkEvent { ev_call : call; ev_raised : option exn }.

(** The driver object: what each command answers in a state of the
    browser, and the state it leaves. *)
Record Engine (E : Type) : Type := mkEngine {
  eng_window_handles : E -> outcome (list string) * E;
  eng_current_window_handle : E -> outcome string * E;
  eng_switch_to_window : string -> E -> outcome unit * E;
  eng_get : string -> E -> outcome unit * E;
  eng_page_source : E -> outcome string * E;
  eng_execute_script : string -> list element -> E -> outcome unit * E;
  eng_find_element : By -> string -> E -> outcome element * E;
  eng_click : element -> E -> outcome unit * E;
  eng_close : E -> outcome unit * E;
  eng_quit : E -> outcome unit * E
}.

Arguments eng_window_handles {E}.
Arguments eng_current_window_handle {E}.
Arguments eng_switch_to_window {E}.
Arguments eng_get {E}.
Arguments eng_page_source {E}.
Arguments eng_execute_script {E}.
Arguments eng_find_element {E}.
Arguments eng_click {E}.
Arguments eng_close {E}.
Arguments eng_quit {E}.

(** The instance: [self.driver], and a record of the commands sent so
    far (instrumentation, not an attribute of the class). *)
Record world (E : Type) : Type := mkWorld {
  driver : option E;
  trace : list event
}.

Arguments mkWorld {E}.
Arguments driver {E}.
Arguments trace {E}.

(** ** A reference browser *)

(** A small deterministic browser, used to run the methods on concrete
    sessions.  It keeps the open tabs in order, the current browsing
    context (none right after the current tab was closed), a counter for
    new handles, the markup of the page and the locators that match an
    element on it. *)
Record ref_browser : Type := mkRef {
  rb_tabs : list string;
  rb_current : option string;
  rb_next : nat;
  rb_source : string;
  rb_present : list string
}.

(** [l] without the first occurrence of [x]. *)
Fixpoint remove_one (x : string) (l : list string) : list string :=
  match l with
  | [] => []
  | y :: l' => if String.eqb x y then l' else y :: remove_one x l'
  end.

(** What the driver raises once the window a command needs is gone. *)
Definition window_gone : exn :=
  mkExn NoSuchWindowException
    (selenium_str "Browsing context has been discarded").

(** What it raises once the whole browser is gone. *)
Definition session_gone : exn :=
  mkExn WebDriverException
    (selenium_str "Browsing context has been discarded").

(** A command that needs a current browsing context. *)
Definition in_context {A} (f : string -> ref_browser -> outcome A * ref_browser)
  (b : ref_browser) : outcome A * ref_browser :=
  match rb_tabs b, rb_current b with
  | [], _ => (inl session_gone, b)
  | _, None => (inl window_gone, b)
  | _, Some h => f h b
  end.

Definition ref_window_handles (b : ref_browser)
  : outcome (list string) * ref_browser :=
  match rb_tabs b with
  | [] => (inl session_gone, b)
  | tabs => (inr tabs, b)
  end.

Definition ref_current_window_handle
  : ref_browser -> outcome string * ref_browser :=
  in_context (fun h b => (inr h, b)).

Definition ref_switch_to_window (handle : string) (b : ref_browser)
  : outcome unit * ref_browser :=
  match rb_tabs b with
  | [] => (inl session_gone, b)
  | tabs =>
      if str_in handle tabs
      then (inr tt,
            mkRef tabs (Some handle) (rb_next b) (rb_source b) (rb_present b))
      else (inl (mkExn NoSuchWindowException
                   (selenium_str ("no such window: " ++ handle))), b)
  end.

Definition ref_get (url : string)
  : ref_browser -> outcome unit * ref_browser :=
  in_context
    (fun _ b =>
       (inr tt,
        mkRef (rb_tabs b) (rb_current b) (rb_next b)
          ("<html><body>" ++ url ++ "</body></html>") [])).

Definition ref_page_source : ref_browser -> outcome string * ref_browser :=
  in_context (fun _ b => (inr (rb_source b), b)).

(** The handle given to the [n]-th tab opened by a script. *)
Definition fresh_handle (n : nat) : string :=
  "tab-" ++ string_of_Z (Z.of_nat n).

Definition ref_execute_script (script : string) (args : list element)
  : ref_browser -> outcome unit * ref_browser :=
  in_context
    (fun _ b =>
       if String.eqb script "window.open('');"
       then (inr tt,
             mkRef (List.app (rb_tabs b) [fresh_handle (rb_next b)])
               (rb_current b) (S (rb_next b)) (rb_source b) (rb_present b))
       else (inr tt, b)).

(** The position of a locator among those that match. *)
Fixpoint position (x : string) (l : list string) : option nat :=
  match l with
  | [] => None
  | y :: l' =>
      if String.eqb x y then Some O
      else match position x l' with Some n => Some (S n) | None => None end
  end.

Definition ref_find_element (by_ : By) (value : string)
  : ref_browser -> outcome element * ref_browser :=
  in_context
    (fun _ b =>
       match position value (rb_present b) with
       | Some el => (inr el, b)
       | None =>
           (inl (mkExn NoSuchElementException
                   (selenium_str ("Unable to locate element: " ++ value))), b)
       end).

Definition ref_click (el : element)
  : ref_browser -> outcome unit * ref_browser :=
  in_context (fun _ b => (inr tt, b)).

Definition ref_close : ref_browser -> outcome unit * ref_browser :=
  in_context
    (fun h b =>
       (inr tt,
        mkRef (remove_one h (rb_tabs b)) None (rb_next b) (rb_source b)
          (rb_present b))).

Definition ref_quit (b : ref_browser) : outcome unit * ref_browser :=
  (inr tt, mkRef [] None (rb_next b) EmptyString []).

Definition ref_engine : Engine ref_browser :=
  mkEngine ref_browser
    ref_window_handles ref_current_window_handle ref_switch_to_window
    ref_get ref_page_source ref_execute_script ref_find_element
    ref_click ref_close ref_quit.

(** [repr] on a string without quotes or escapes in it. *)
Definition plain_repr (s : string) : string := "'" ++ s ++ "'".

(** ** The monad of the method bodies *)

Section Browser.

Context {E : Type}.
Variable eng : Engine E.
Variable repr_str : string -> string.

(** A computation reads and writes the instance and either returns or
    raises. *)
Definition M (A : Type) : Type := world E -> outcome A * world E.

Definition ret {A} (a : A) : M A := fun w => (inr a, w).

Definition bind {A B} (m : M A) (k : A -> M B) : M B :=
  fun w =>
    match m w with
    | (inr a, w') => k a w'
    | (inl e, w') => (inl e, w')
    end.

Local Notation "x <- m ;; k" := (bind m (fun x => k))
  (at level 100, m at next level, right associativity).

(** [raise cls(msg)], with [str(e)] given. *)
Definition raise {A} (cls : exn_class) (text : string) : M A :=
  fun w => (inl (mkExn cls text), w).

(** [try: body  except ...: handler].  A handler receives the exception
    and the instance as the body left it, and ends the method. *)
Definition try_except {A} (body : M A) (handler : exn -> world E -> A * world E)
  : world E -> A * world E :=
  fun w =>
    match body w with
    | (inr a, w') => (a, w')
    | (inl e, w') => handler e w'
    end.

(** [try: x = body  except: x = dflt], the bare [except] of
    [get_all_tabs]. *)
Definition try_or {A} (body : M A) (dflt : A) : M A :=
  fun w =>
    match body w with
    | (inr a, w') => (inr a, w')
    | (inl _, w') => (inr dflt, w')
    end.

(** A handler that only builds the failure envelope. *)
Definition returning (env : envelope) : world E -> envelope * world E :=
  fun w => (env, w).

(** [json.loads(self.method(...))]: the callee's envelope, read back.
    [json.dumps] followed by [json.loads] returns the dict it was given
    for the fields the callers read ([code], [message]). *)
Definition call_method (m : world E -> envelope * world E) : M envelope :=
  fun w => let (env, w') := m w in (inr env, w').

(** [if not self.driver: raise Exception("Browser driver not initialized")].
    A driver object is truthy, so the test is [self.driver is None]. *)
Definition check_driver : M unit :=
  fun w =>
    match driver w with
    | None => (inl (mkExn Exception "Browser driver not initialized"), w)
    | Some _ => (inr tt, w)
    end.

(** [self.driver = None]. *)
Definition clear_driver : world E -> world E :=
  fun w => mkWorld None (trace w).

Definition set_driver_none : M unit :=
  fun w => (inr tt, clear_driver w).

(** The truth value of [self.driver]. *)
Definition has_driver : M bool :=
  fun w => (inr (match driver w with Some _ => true | None => false end), w).

(** An attribute access or a method call on [self.driver]: the command is
    recorded with its outcome; on [None] Python raises [AttributeError]
    and nothing is sent. *)
Definition engine_call {A} (attr : string) (c : call)
  (f : E -> outcome A * E) : M A :=
  fun w =>
    match driver w with
    | None =>
        (inl (mkExn AttributeError
                ("'NoneType' object has no attribute '" ++ attr ++ "'")), w)
    | Some e =>
        let (r, e') := f e in
        (r, mkWorld (Some e')
              (trace w ++
               [mkEvent c (match r with inl x => Some x | inr _ => None end)])%list)
    end.

Definition window_handles : M (list string) :=
  engine_call "window_handles" CWindowHandles (eng_window_handles eng).

Definition current_window_handle : M string :=
  engine_call "current_window_handle" CCurrentWindowHandle
    (eng_current_window_handle eng).

Definition switch_to_window (handle : string) : M unit :=
  engine_call "switch_to" (CSwitchToWindow handle)
    (eng_switch_to_window eng handle).

Definition get (url : string) : M unit :=
  engine_call "get" (CGet url) (eng_get eng url).

Definition page_source : M string :=
  engine_call "page_source" CPageSource (eng_page_source eng).

Definition execute_script (script : string) (args : list element) : M unit :=
  engine_call "execute_script" (CExecuteScript script args)
    (eng_execute_script eng script args).

Definition find_element (by_ : By) (value : string) : M element :=
  engine_call "find_element" (CFindElement by_ value)
    (eng_find_element eng by_ value).

(** [target_element.click()]: the element sends the command through the
    driver that found it. *)
Definition click (el : element) : M unit :=
  engine_call "click" (CClick el) (eng_click eng el).

Definition close : M unit :=
  engine_call "close" CClose (eng_close eng).

Definition quit : M unit :=
  engine_call "quit" CQuit (eng_quit eng).

(** [time.sleep(0.5)]: no effect on the instance. *)
Definition sleep : M unit := ret tt.

(** [l[i]] for an integer [i]: negative indices count from the end, and
    an index outside the list raises [IndexError]. *)
Definition list_item (l : list string) (i : Z) : M string :=
  let j := if Z.ltb i 0 then len l + i else i in
  if Z.ltb j 0 then raise IndexError "list index out of range"
  else match nth_error l (Z.to_nat j) with
       | Some h => ret h
       | None => raise IndexError "list index out of range"
       end.

(** [l.index(x)], which raises [ValueError] when [x] is missing. *)
Definition list_index (x : string) (l : list string) : M Z :=
  match index_of x l with
  | Some n => ret (Z.of_nat n)
  | None => raise ValueError (repr_str x ++ " is not in list")
  end.

Definition success_json (msg : string) (det dat : pyval) : envelope :=
  mkEnvelope 200 "success" msg det dat.

Definition fail_json (c : Z) (msg : string) (det : pyval) : envelope :=
  mkEnvelope c "failed" msg det PyNone.

(** ** The methods of [FirefoxAutoBrowser] *)

(** [create_new_tab]. *)
Definition create_new_tab : world E -> envelope * world E :=
  try_except
    (_ <- check_driver ;;
     _ <- execute_script "window.open('');" [] ;;
     ret (success_json "New tab created successfully" PyNone PyNone))
    (fun e =>
       returning
         (fail_json 500 ("Failed to create new tab: " ++ exn_str e) PyNone)).

(** The loop of [get_all_tabs] over [enumerate(window_handles)]. *)
Fixpoint tabs_info_from (index : Z) (handles : list string)
  (active_handle : option string) : list pyval :=
  match handles with
  | [] => []
  | handle :: rest =>
      let is_active :=
        match active_handle with
        | Some a => negb (String.eqb a EmptyString) && String.eqb handle a
        | None => false
        end in
      let tab_status :=
        if is_active then "[Currently Active]" else "[Inactive]" in
      PyDict [("index", PyInt index);
              ("handle", PyStr handle);
              ("handle_abbr", PyStr (abbr handle));
              ("status", PyStr tab_status)]
        :: tabs_info_from (index + 1) rest active_handle
  end.

(** [get_all_tabs]. *)
Definition get_all_tabs : world E -> envelope * world E :=
  try_except
    (_ <- check_driver ;;
     handles <- window_handles ;;
     let tab_count := len handles in
     active_handle <-
       try_or (h <- current_window_handle ;; ret (Some h)) None ;;
     let tabs_detail :=
       PyDict [("total_tabs", PyInt tab_count);
               ("tabs_info", PyList (tabs_info_from 0 handles active_handle))] in
     ret (success_json
            ("Successfully retrieved " ++ string_of_Z tab_count
             ++ " tabs in total")
            tabs_detail
            (PyList (map PyStr handles))))
    (fun e =>
       returning
         (fail_json 500 ("Failed to get all tabs: " ++ exn_str e) PyNone)).

(** [get_active_tab]. *)
Definition get_active_tab : world E -> envelope * world E :=
  try_except
    (_ <- check_driver ;;
     current_window <- current_window_handle ;;
     all_handles <- window_handles ;;
     let tab_count := len all_handles in
     active_tab_index <- list_index current_window all_handles ;;
     let active_detail :=
       PyDict [("total_tabs", PyInt tab_count);
               ("active_tab_index", PyInt active_tab_index);
               ("active_tab_handle", PyStr current_window)] in
     ret (success_json
            "Successfully retrieved current active tab information"
            active_detail
            (PyStr current_window)))
    (fun e =>
       returning
         (fail_json 500 ("Failed to get active tab: " ++ exn_str e) PyNone)).

(** The [if isinstance(target, int): ... elif isinstance(target, str):
    ... else: ...] block of [switch_to_specific_tab], which computes
    [target_handle] from [target] and the handles just fetched. *)
Definition switch_target_handle (target : pyval) (all_handles : list string)
  : M string :=
  match as_int target with
  | Some i =>
      if Z.leb 0 i && Z.ltb i (len all_handles)
      then list_item all_handles i
      else raise Exception
             ("Tab index " ++ py_str repr_str target
              ++ " is invalid, only " ++ string_of_Z (len all_handles)
              ++ " tabs exist currently (index 0~"
              ++ string_of_Z (len all_handles - 1) ++ ")")
  | None =>
      match as_str target with
      | Some s =>
          if str_in s all_handles then ret s
          else raise Exception
                 ("Tab handle " ++ s
                  ++ " is invalid, not in the current tab list")
      | None =>
          raise Exception
            "Invalid parameter type, supports int (index) or str (handle)"
      end
  end.

(** [switch_to_specific_tab(target)]. *)
Definition switch_to_specific_tab (target : pyval)
  : world E -> envelope * world E :=
  try_except
    (_ <- check_driver ;;
     all_handles <- window_handles ;;
     target_handle <- switch_target_handle target all_handles ;;
     _ <- switch_to_window target_handle ;;
     ret (success_json "Successfully switched to target tab"
            (PyDict [("target_param", target);
                     ("target_handle", PyStr target_handle);
                     ("target_handle_abbr", PyStr (abbr target_handle))])
            PyNone))
    (fun e =>
       returning
         (fail_json 500 ("Failed to switch to specific tab: " ++ exn_str e)
            (PyDict [("input_target", target)]))).

(** [open_url_in_specific_tab(url, target)]. *)
Definition open_url_in_specific_tab (url target : pyval)
  : world E -> envelope * world E :=
  try_except
    (_ <- check_driver ;;
     url_text <-
       match as_str url with
       | Some s => if truthy url then ret s
                   else raise Exception "Invalid web page address"
       | None => raise Exception "Invalid web page address"
       end ;;
     switch_result <- call_method (switch_to_specific_tab target) ;;
     _ <- (if Z.eqb (code switch_result) 200 then ret tt
           else raise Exception (message switch_result)) ;;
     _ <- get url_text ;;
     ret (success_json
            ("Successfully opened web page in target tab: " ++ url_text)
            (PyDict [("target_tab", target); ("opened_url", url)])
            PyNone))
    (fun e =>
       let fail_detail :=
         PyDict [("target_tab", target); ("input_url", url)] in
       if isinstance e TimeoutException || isinstance e WebDriverException
       then returning
              (fail_json 500
                 ("Web page loading timed out or failed to open: "
                  ++ exn_str e) fail_detail)
       else returning
              (fail_json 500
                 ("Failed to open web page in specific tab: " ++ exn_str e)
                 fail_detail)).

(** [get_specific_tab_page_content(target)]. *)
Definition get_specific_tab_page_content (target : pyval)
  : world E -> envelope * world E :=
  try_except
    (_ <- check_driver ;;
     target_info <-
       match target with
       | PyNone =>
           current_handle <- current_window_handle ;;
           ret [("target_type", PyStr "current_active");
                ("target_handle", PyStr current_handle);
                ("target_handle_abbr", PyStr (abbr current_handle))]
       | _ =>
           all_handles <- window_handles ;;
           found <-
             match as_int target with
             | Some i =>
                 if Z.leb 0 i && Z.ltb i (len all_handles)
                 then
                   target_handle <- list_item all_handles i ;;
                   ret (target_handle,
                        [("target_type", PyStr "index");
                         ("input_target", target);
                         ("target_handle", PyStr target_handle);
                         ("target_handle_abbr", PyStr (abbr target_handle))])
                 else raise Exception
                        ("Tab index " ++ py_str repr_str target
                         ++ " is invalid, only "
                         ++ string_of_Z (len all_handles)
                         ++ " tabs exist currently")
             | None =>
                 match as_str target with
                 | Some s =>
                     if str_in s all_handles
                     then ret (s,
                               [("target_type", PyStr "handle");
                                ("input_target", target);
                                ("target_handle", PyStr s);
                                ("target_handle_abbr", PyStr (abbr s))])
                     else raise Exception
                            ("Tab handle " ++ s
                             ++ " is invalid, not in the current tab list")
                 | None =>
                     raise Exception
                       "Invalid parameter type, supports int (index) or str (handle)"
                 end
             end ;;
           _ <- switch_to_window (fst found) ;;
           ret (snd found)
       end ;;
     page_content <- page_source ;;
     let content_length := strlen page_content in
     let target_info :=
       dict_set "content_length" (PyInt content_length) target_info in
     ret (success_json
            ("Successfully retrieved target tab page content, content length: "
             ++ string_of_Z content_length ++ " characters")
            (PyDict target_info)
            (PyStr page_content)))
    (fun e =>
       let fail_detail := PyDict [("input_target", target)] in
       if isinstance e WebDriverException
       then returning
              (fail_json 500
                 ("Failed to get tab page content (WebDriver exception): "
                  ++ exn_str e) fail_detail)
       else returning
              (fail_json 500
                 ("Failed to get tab page content: " ++ exn_str e)
                 fail_detail)).

(** The block shared by the scroll and click methods:
    [if target_tab is not None:] switch, raise on a failed switch (with
    the callee's message behind [prefix]), and note the switch in the
    detail dict. *)
Definition switch_if_given (prefix : string) (target_tab : pyval)
  (detail_dict : list (string * pyval)) : M (list (string * pyval)) :=
  match target_tab with
  | PyNone => ret detail_dict
  | _ =>
      switch_result <- call_method (switch_to_specific_tab target_tab) ;;
      _ <- (if Z.eqb (code switch_result) 200 then ret tt
            else raise Exception (prefix ++ message switch_result)) ;;
      ret (dict_set "switch_status"
             (PyStr "Successfully switched to target tab") detail_dict)
  end.

(** [scroll_mouse_wheel_down(scroll_distance, target_tab)]. *)
Definition scroll_mouse_wheel_down (scroll_distance target_tab : pyval)
  : world E -> envelope * world E :=
  try_except
    (_ <- check_driver ;;
     let scroll_detail :=
       [("scroll_direction", PyStr "down");
        ("scroll_distance", scroll_distance);
        ("target_tab", target_tab)] in
     scroll_detail <- switch_if_given EmptyString target_tab scroll_detail ;;
     _ <- execute_script
            ("window.scrollBy(0, " ++ py_str repr_str scroll_distance ++ ");")
            [] ;;
     ret (success_json
            ("Mouse wheel scrolled down successfully, scrolling distance: "
             ++ py_str repr_str scroll_distance ++ " pixels")
            (PyDict scroll_detail)
            PyNone))
    (fun e =>
       let fail_detail :=
         PyDict [("scroll_distance", scroll_distance);
                 ("target_tab", target_tab)] in
       if isinstance e WebDriverException
       then returning
              (fail_json 500
                 ("Failed to scroll mouse wheel down (WebDriver exception): "
                  ++ exn_str e) fail_detail)
       else returning
              (fail_json 500
                 ("Failed to scroll mouse wheel down: " ++ exn_str e)
                 fail_detail)).

(** [scroll_mouse_wheel_up(scroll_distance, target_tab)]. *)
Definition scroll_mouse_wheel_up (scroll_distance target_tab : pyval)
  : world E -> envelope * world E :=
  try_except
    (_ <- check_driver ;;
     let scroll_detail :=
       [("scroll_direction", PyStr "up");
        ("scroll_distance", scroll_distance);
        ("target_tab", target_tab)] in
     scroll_detail <- switch_if_given EmptyString target_tab scroll_detail ;;
     _ <- execute_script
            ("window.scrollBy(0, -" ++ py_str repr_str scroll_distance ++ ");")
            [] ;;
     ret (success_json
            ("Mouse wheel scrolled up successfully, scrolling distance: "
             ++ py_str repr_str scroll_distance ++ " pixels")
            (PyDict scroll_detail)
            PyNone))
    (fun e =>
       let fail_detail :=
         PyDict [("scroll_distance", scroll_distance);
                 ("target_tab", target_tab)] in
       if isinstance e WebDriverException
       then returning
              (fail_json 500
                 ("Failed to scroll mouse wheel up (WebDriver exception): "
                  ++ exn_str e) fail_detail)
       else returning
              (fail_json 500
                 ("Failed to scroll mouse wheel up: " ++ exn_str e)
                 fail_detail)).

(** [click_element_by_xpath(xpath, target_tab)]. *)
Definition click_element_by_xpath (xpath target_tab : pyval)
  : world E -> envelope * world E :=
  try_except
    (_ <- check_driver ;;
     xpath_text <-
       match as_str xpath with
       | Some s =>
           if truthy xpath then ret s
           else raise Exception
                  "Invalid XPath expression: it must be a non-empty string"
       | None =>
           raise Exception
             "Invalid XPath expression: it must be a non-empty string"
       end ;;
     let click_detail :=
       [("xpath_expression", xpath);
        ("target_tab", target_tab);
        ("operation_status", PyStr "not_executed")] in
     click_detail <-
       switch_if_given "Failed to switch to target tab: " target_tab
         click_detail ;;
     let click_detail :=
       dict_set "operation_status" (PyStr "locating_element") click_detail in
     target_element <- find_element By_XPATH xpath_text ;;
     _ <- (if element_truthy target_element then ret tt
           else raise NoSuchElementException
                  (selenium_str
                     "Element not found even with valid XPath expression")) ;;
     let click_detail :=
       dict_set "operation_status" (PyStr "clicking_element") click_detail in
     _ <- click target_element ;;
     let click_detail :=
       dict_set "operation_status" (PyStr "completed_successfully")
         click_detail in
     ret (success_json "Element located by XPath and clicked successfully"
            (PyDict click_detail)
            PyNone))
    (fun e =>
       let fail_detail (error_type : string) :=
         PyDict [("xpath_expression", xpath);
                 ("target_tab", target_tab);
                 ("error_type", PyStr error_type)] in
       if isinstance e NoSuchElementException
       then returning
              (fail_json 404 ("Element not found by XPath: " ++ exn_str e)
                 (fail_detail "NoSuchElementException"))
       else if isinstance e WebDriverException
       then returning
              (fail_json 500
                 ("Failed to click element (WebDriver exception): "
                  ++ exn_str e)
                 (fail_detail "WebDriverException"))
       else returning
              (fail_json 500
                 ("Failed to click element by XPath: " ++ exn_str e)
                 (fail_detail "GeneralException"))).

(** The dict [supported_locators] of [click_element]. *)
Definition supported_locators : list (string * By) :=
  [("id", By_ID);
   ("xpath", By_XPATH);
   ("name", By_NAME);
   ("class_name", By_CLASS_NAME);
   ("css_selector", By_CSS_SELECTOR);
   ("tag_name", By_TAG_NAME);
   ("link_text", By_LINK_TEXT);
   ("partial_link_text", By_PARTIAL_LINK_TEXT)].

Fixpoint locator_get (k : string) (d : list (string * By)) : option By :=
  match d with
  | [] => None
  | (k', b) :: d' => if String.eqb k k' then Some b else locator_get k d'
  end.

(** [locator_type in supported_locators] followed by
    [supported_locators[locator_type]]: the keys are strings, so only a
    string can be found; a list or a dict cannot be hashed and the test
    itself raises [TypeError]. *)
Definition lookup_locator (locator_type : pyval) : M (option By) :=
  match locator_type with
  | PyStr s => ret (locator_get s supported_locators)
  | PyList _ => raise TypeError "unhashable type: 'list'"
  | PyDict _ => raise TypeError "unhashable type: 'dict'"
  | _ => ret None
  end.

(** [click_element(locator, locator_type, target_tab)]. *)
Definition click_element (locator locator_type target_tab : pyval)
  : world E -> envelope * world E :=
  try_except
    (_ <- check_driver ;;
     supported <- lookup_locator locator_type ;;
     by_locator <-
       match supported with
       | Some b => ret b
       | None =>
           let supported_types :=
             String.concat ", " (map fst supported_locators) in
           raise Exception
             ("Unsupported locator type: " ++ py_str repr_str locator_type
              ++ ". Supported types: " ++ supported_types)
       end ;;
     locator_text <-
       match as_str locator with
       | Some s =>
           if truthy locator then ret s
           else raise Exception
                  "Invalid locator expression: it must be a non-empty string"
       | None =>
           raise Exception
             "Invalid locator expression: it must be a non-empty string"
       end ;;
     let click_detail :=
       [("locator_type", locator_type);
        ("locator_expression", locator);
        ("target_tab", target_tab);
        ("operation_status", PyStr "not_executed")] in
     click_detail <-
       switch_if_given "Failed to switch to target tab: " target_tab
         click_detail ;;
     let click_detail :=
       dict_set "operation_status" (PyStr "locating_element") click_detail in
     target_element <- find_element by_locator locator_text ;;
     _ <- (if element_truthy target_element then ret tt
           else raise NoSuchElementException
                  (selenium_str
                     ("Element not found even with valid "
                      ++ py_str repr_str locator_type ++ " locator"))) ;;
     let click_detail :=
       dict_set "operation_status" (PyStr "scrolling_to_element")
         click_detail in
     _ <- execute_script
            "arguments[0].scrollIntoView({behavior: 'smooth', block: 'center'});"
            [target_element] ;;
     let click_detail :=
       dict_set "operation_status" (PyStr "clicking_element") click_detail in
     _ <- click target_element ;;
     let click_detail :=
       dict_set "operation_status" (PyStr "completed_successfully")
         click_detail in
     ret (success_json
            ("Element located by " ++ py_str repr_str locator_type
             ++ " and clicked successfully")
            (PyDict click_detail)
            PyNone))
    (fun e =>
       let fail_detail (error_type : string) :=
         PyDict [("locator_type", locator_type);
                 ("locator_expression", locator);
                 ("target_tab", target_tab);
                 ("error_type", PyStr error_type)] in
       if isinstance e NoSuchElementException
       then returning
              (fail_json 404
                 ("Element not found by " ++ py_str repr_str locator_type
                  ++ ": " ++ exn_str e)
                 (fail_detail "NoSuchElementException"))
       else if isinstance e WebDriverException
       then returning
              (fail_json 500
                 ("Failed to click element (WebDriver exception): "
                  ++ exn_str e)
                 (fail_detail "WebDriverException"))
       else returning
              (fail_json 500
                 ("Failed to click element by " ++ py_str repr_str locator_type
                  ++ ": " ++ exn_str e)
                 (fail_detail "GeneralException"))).

(** The test of the [WebDriverException] handler of [close_specific_tab]:
    the text of the error says that the browsing context is gone. *)
Definition context_gone (e : exn) : bool :=
  is_substring "Browsing context has been discarded" (exn_str e)
  || is_substring "NoSuchWindowError" (exn_str e).

(** [close_specific_tab(target)]. *)
Definition close_specific_tab (target : pyval)
  : world E -> envelope * world E :=
  try_except
    (_ <- check_driver ;;
     all_handles <- window_handles ;;
     let tab_count_before_close := len all_handles in
     _ <- (if Z.eqb tab_count_before_close 0
           then raise Exception "No available tabs to close currently"
           else ret tt) ;;
     let close_detail :=
       [("tab_count_before_close", PyInt tab_count_before_close);
        ("input_target", target)] in
     chosen <-
       match target with
       | PyNone =>
           close_handle <- current_window_handle ;;
           ret (close_handle,
                dict_set "target_type" (PyStr "current_active") close_detail)
       | _ =>
           match as_int target with
           | Some i =>
               if Z.leb 0 i && Z.ltb i tab_count_before_close
               then
                 close_handle <- list_item all_handles i ;;
                 ret (close_handle,
                      dict_set "target_type" (PyStr "index") close_detail)
               else raise Exception
                      ("Tab index " ++ py_str repr_str target
                       ++ " is invalid, only "
                       ++ string_of_Z tab_count_before_close
                       ++ " tabs exist currently")
           | None =>
               match as_str target with
               | Some s =>
                   if str_in s all_handles
                   then ret (s,
                             dict_set "target_type" (PyStr "handle")
                               close_detail)
                   else raise Exception
                          ("Tab handle " ++ s
                           ++ " is invalid, not in the current tab list")
               | None =>
                   raise Exception
                     "Invalid parameter type, supports int (index) or str (handle)"
               end
           end
       end ;;
     let close_handle := fst chosen in
     let close_detail := snd chosen in
     let close_detail :=
       dict_set "closed_handle" (PyStr close_handle) close_detail in
     let close_detail :=
       dict_set "closed_handle_abbr" (PyStr (abbr close_handle))
         close_detail in
     _ <- switch_to_window close_handle ;;
     let is_last_tab := Z.eqb tab_count_before_close 1 in
     let close_detail :=
       dict_set "is_last_tab" (PyBool is_last_tab) close_detail in
     _ <- close ;;
     close_detail <-
       (if negb is_last_tab
        then
          _ <- sleep ;;
          remaining_handles <- window_handles ;;
          match remaining_handles with
          | first :: _ =>
              _ <- switch_to_window first ;;
              ret (dict_set "switched_to_remaining_handle" (PyStr first)
                     (dict_set "post_close_operation"
                        (PyStr "Automatically switched to the first remaining tab")
                        close_detail))
          | [] => ret close_detail
          end
        else
          _ <- set_driver_none ;;
          ret (dict_set "post_close_operation"
                 (PyStr "Closed the last tab, browser window exited, driver context invalidated")
                 close_detail)) ;;
     ret (success_json ("Successfully closed tab: " ++ close_handle)
            (PyDict close_detail)
            PyNone))
    (fun e =>
       if isinstance e WebDriverException
       then
         let close_detail :=
           [("input_target", target);
            ("error_type", PyStr "WebDriverException")] in
         if context_gone e
         then
           fun w =>
             (fail_json 500
                "Browsing context invalidated (tab/browser closed), cannot continue operation"
                (PyDict
                   (dict_set "error_detail"
                      (PyStr "Browsing context invalidated (tab/browser closed), cannot continue operation")
                      close_detail)),
              clear_driver w)
         else
           returning
             (fail_json 500 ("Failed to close specific tab: " ++ exn_str e)
                (PyDict
                   (dict_set "error_detail" (PyStr (exn_str e)) close_detail)))
       else
         returning
           (fail_json 500 ("Failed to close specific tab: " ++ exn_str e)
              (PyDict [("input_target", target)]))).

(** [quit_browser]. *)
Definition quit_browser : world E -> envelope * world E :=
  try_except
    (alive <- has_driver ;;
     _ <- (if alive then _ <- quit ;; set_driver_none else ret tt) ;;
     ret (success_json "Browser exited successfully, resources released"
            PyNone PyNone))
    (fun e =>
       returning
         (fail_json 500 ("Failed to quit browser: " ++ exn_str e) PyNone)).

(** ** The tools registered on the server *)

(** The module-level [browser] is [None] when the constructor raised, and
    the instance otherwise.  Every tool tests it before it calls the
    method of the same name. *)
Definition tool (fail_message : string) (fail_detail : pyval)
  (method : world E -> envelope * world E) (browser : option (world E))
  : envelope * option (world E) :=
  match browser with
  | None => (fail_json 500 fail_message fail_detail, None)
  | Some w => let (env, w') := method w in (env, Some w')
  end.

(** The operations a caller can invoke, with their arguments. *)
Inductive op : Type :=
| CreateNewTab
| GetAllTabs
| GetActiveTab
| SwitchToSpecificTab (target : pyval)
| OpenUrlInSpecificTab (url target : pyval)
| GetSpecificTabPageContent (target : pyval)
| ScrollMouseWheelDown (scroll_distance target_tab : pyval)
| ScrollMouseWheelUp (scroll_distance target_tab : pyval)
| ClickElementByXpath (xpath target_tab : pyval)
| ClickElement (locator locator_type target_tab : pyval)
| CloseSpecificTab (target : pyval)
| QuitBrowser.

(** The method behind each tool. *)
Definition method_of (o : op) : world E -> envelope * world E :=
  match o with
  | CreateNewTab => create_new_tab
  | GetAllTabs => get_all_tabs
  | GetActiveTab => get_active_tab
  | SwitchToSpecificTab target => switch_to_specific_tab target
  | OpenUrlInSpecificTab url target => open_url_in_specific_tab url target
  | GetSpecificTabPageContent target => get_specific_tab_page_content target
  | ScrollMouseWheelDown d t => scroll_mouse_wheel_down d t
  | ScrollMouseWheelUp d t => scroll_mouse_wheel_up d t
  | ClickElementByXpath xpath t => click_element_by_xpath xpath t
  | ClickElement locator locator_type t => click_element locator locator_type t
  | CloseSpecificTab target => close_specific_tab target
  | QuitBrowser => quit_browser
  end.

(** The envelope each tool returns when [browser is None]. *)
Definition uninitialized_message (o : op) : string :=
  match o with
  | CreateNewTab => "浏览器实例未初始化，无法创建新标签页"
  | GetAllTabs => "浏览器实例未初始化，无法获取标签页列表"
  | GetActiveTab => "浏览器实例未初始化，无法获取激活标签页"
  | SwitchToSpecificTab _ => "浏览器实例未初始化，无法切换标签页"
  | OpenUrlInSpecificTab _ _ => "浏览器实例未初始化，无法打开网页"
  | GetSpecificTabPageContent _ => "浏览器实例未初始化，无法获取网页内容"
  | ScrollMouseWheelDown _ _ => "浏览器实例未初始化，无法执行滚动操作"
  | ScrollMouseWheelUp _ _ => "浏览器实例未初始化，无法执行滚动操作"
  | ClickElementByXpath _ _ => "浏览器实例未初始化，无法执行元素点击操作"
  | ClickElement _ _ _ => "浏览器实例未初始化，无法执行元素点击操作"
  | CloseSpecificTab _ => "浏览器实例未初始化，无法关闭标签页"
  | QuitBrowser => "浏览器实例未初始化，无需执行退出操作"
  end.

Definition uninitialized_detail (o : op) : pyval :=
  match o with
  | CreateNewTab | GetAllTabs | GetActiveTab | QuitBrowser => PyNone
  | SwitchToSpecificTab target
  | GetSpecificTabPageContent target
  | CloseSpecificTab target => PyDict [("input_target", target)]
  | OpenUrlInSpecificTab url target =>
      PyDict [("target_tab", target); ("input_url", url)]
  | ScrollMouseWheelDown d t | ScrollMouseWheelUp d t =>
      PyDict [("scroll_distance", d); ("target_tab", t)]
  | ClickElementByXpath xpath t =>
      PyDict [("xpath_expression", xpath); ("target_tab", t)]
  | ClickElement locator locator_type t =>
      PyDict [("locator_expression", locator);
              ("locator_type", locator_type);
              ("target_tab", t)]
  end.

(** One call of a tool on the module-level [browser]. *)
Definition run_tool (o : op) (browser : option (world E))
  : envelope * option (world E) :=
  tool (uninitialized_message o) (uninitialized_detail o) (method_of o) browser.

(** ** Reasoning about the method bodies *)

(** Every value a computation returns satisfies [P]. *)
Definition returns {A} (P : A -> Prop) (m : M A) : Prop :=
  forall w a w', m w = (inr a, w') -> P a.

Lemma returns_ret {A} (P : A -> Prop) (a : A) : P a -> returns P (ret a).
Proof.
  intros HP w a' w' H. unfold ret in H. inversion H. subst. exact HP.
Qed.

Lemma returns_bind {A B} (P : B -> Prop) (m : M A) (k : A -> M B) :
  (forall a, returns P (k a)) -> returns P (bind m k).
Proof.
  intros Hk w b w' H. unfold bind in H.
  destruct (m w) as [[e | a] w1].
  - discriminate H.
  - exact (Hk a w1 b w' H).
Qed.

(** The envelope of a method comes from its [try] block or from one of
    its handlers. *)
Lemma try_except_cases (P : envelope -> Prop) (body : M envelope)
  (handler : exn -> world E -> envelope * world E) :
  returns P body ->
  (forall e w, P (fst (handler e w))) ->
  forall w, P (fst (try_except body handler w)).
Proof.
  intros Hb Hh w. unfold try_except.
  destruct (body w) as [[e | a] w1] eqn:Hrun.
  - apply Hh.
  - simpl. exact (Hb w a w1 Hrun).
Qed.

(** The two shapes an envelope is built in. *)
Definition success_shaped (env : envelope) : Prop :=
  code env = 200 /\ status env = "success".

Definition failure_shaped (env : envelope) : Prop :=
  (code env = 500 \/ code env = 404)
  /\ status env = "failed" /\ data env = PyNone.

Definition shaped (env : envelope) : Prop :=
  success_shaped env \/ failure_shaped env.

Lemma success_json_shaped msg det dat : shaped (success_json msg det dat).
Proof. left. split; reflexivity. Qed.

Lemma fail_500_shaped msg det : shaped (fail_json 500 msg det).
Proof. right. repeat split. left. reflexivity. Qed.

Lemma fail_404_shaped msg det : shaped (fail_json 404 msg det).
Proof. right. repeat split. right. reflexivity. Qed.

Create HintDb envelope.

#[local] Hint Resolve success_json_shaped fail_500_shaped fail_404_shaped
  : envelope.

(** Walks through a [try] block down to the envelope it returns. *)
Ltac to_return :=
  repeat (cbv zeta; first [ apply returns_bind; intros | apply returns_ret ]).

(** Splits a handler on the [except] clause that catches the exception. *)
Ltac by_clause :=
  intros ? ?;
  repeat match goal with
         | |- context [if ?c then _ else _] => destruct c
         end;
  cbn [fst returning].

(** Opens the definition of whichever method the goal is about. *)
Ltac unfold_method :=
  unfold create_new_tab, get_all_tabs, get_active_tab,
    switch_to_specific_tab, open_url_in_specific_tab,
    get_specific_tab_page_content, scroll_mouse_wheel_down,
    scroll_mouse_wheel_up, click_element_by_xpath, click_element,
    close_specific_tab, quit_browser.

Lemma method_shaped (o : op) (w : world E) : shaped (fst (method_of o w)).
Proof.
  destruct o; cbn [method_of]; unfold_method;
    (apply try_except_cases;
     [ to_return; auto with envelope | by_clause; auto with envelope ]).
Qed.

(** ** Commands sent during a call *)

(** The commands recorded between two states of the instance. *)
Definition events_of (w w' : world E) : list event :=
  skipn (List.length (trace w)) (trace w').

(** The most recent of a list of commands. *)
Definition last_event (evs : list event) : option event :=
  hd_error (rev evs).


Lemma events_of_app (d d' : option E) (t evs : list event) :
  events_of (mkWorld d t) (mkWorld d' (t ++ evs)%list) = evs.
Proof.
  unfold events_of. cbn [trace].
  rewrite skipn_app, skipn_all, Nat.sub_diag. reflexivity.
Qed.

Lemma events_of_same (d d' : option E) (t : list event) :
  events_of (mkWorld d t) (mkWorld d' t) = [].
Proof.
  unfold events_of. cbn [trace]. apply skipn_all.
Qed.

Lemma last_event_snoc (evs : list event) (ev : event) :
  last_event (evs ++ [ev])%list = Some ev.
Proof.
  unfold last_event. rewrite rev_app_distr. reflexivity.
Qed.

(** ** The envelope invariant *)

Lemma tool_shaped (o : op) (browser : option (world E)) :
  shaped (fst (run_tool o browser)).
Proof.
  unfold run_tool, tool. destruct browser as [w |].
  - pose proof (method_shaped o w) as H.
    destruct (method_of o w) as [env w']. exact H.
  - cbn [fst]. auto with envelope.
Qed.

(** C1.  Whatever the operation, its arguments and the state of the
    session, and whether the call succeeds or fails, the envelope it
    returns has status "success" exactly when its code is 200, and a
    data field other than null only with status "success". *)
Theorem envelope_status_code_data (o : op) (browser : option (world E)) :
  let env := fst (run_tool o browser) in
  (status env = "success" <-> code env = 200)
  /\ (data env <> PyNone -> status env = "success").
Proof.
  cbv zeta.
  destruct (tool_shaped o browser) as [[Hc Hs] | [Hc [Hs Hd]]].
  - rewrite Hc, Hs. repeat split; reflexivity.
  - rewrite Hs, Hd. repeat split.
    + intros H. discriminate H.
    + intros H. destruct Hc as [Hc | Hc]; rewrite Hc in H; discriminate H.
    + intros H. contradiction H. reflexivity.
Qed.

(** ** The detail field of a failure *)

(** The arguments a caller passes to an operation, under the keys the
    failure envelopes file them. *)
Definition input_parameters (o : op) : list (string * pyval) :=
  match o with
  | CreateNewTab | GetAllTabs | GetActiveTab | QuitBrowser => []
  | SwitchToSpecificTab target
  | GetSpecificTabPageContent target
  | CloseSpecificTab target => [("input_target", target)]
  | OpenUrlInSpecificTab url target =>
      [("input_url", url); ("target_tab", target)]
  | ScrollMouseWheelDown d t | ScrollMouseWheelUp d t =>
      [("scroll_distance", d); ("target_tab", t)]
  | ClickElementByXpath xpath t =>
      [("xpath_expression", xpath); ("target_tab", t)]
  | ClickElement locator locator_type t =>
      [("locator_expression", locator);
       ("locator_type", locator_type);
       ("target_tab", t)]
  end.

(** The detail of [env] holds every one of [params] under its key, and
    is null exactly when there is none to hold. *)
Definition carries (params : list (string * pyval)) (env : envelope) : Prop :=
  (forall k p, In (k, p) params -> field k (detail env) = Some p)
  /\ (params = [] <-> detail env = PyNone).

Lemma try_except_failed (P : envelope -> Prop) (body : M envelope)
  (handler : exn -> world E -> envelope * world E) :
  returns success_shaped body ->
  (forall e w, P (fst (handler e w))) ->
  forall w,
    status (fst (try_except body handler w)) = "failed" ->
    P (fst (try_except body handler w)).
Proof.
  intros Hb Hh w. unfold try_except.
  destruct (body w) as [[e | a] w1] eqn:Hrun.
  - intros _. apply Hh.
  - cbn [fst]. intros Hfailed.
    destruct (Hb w a w1 Hrun) as [_ Hs]. rewrite Hs in Hfailed.
    discriminate Hfailed.
Qed.

(** Checks [carries] on an envelope whose detail is written out. *)
Ltac carried :=
  split;
  [ intros k p Hin; cbn [In] in Hin;
    repeat match type of Hin with
           | _ \/ _ => destruct Hin as [Hin | Hin]
           end;
    first [ contradiction Hin | inversion Hin; subst; reflexivity ]
  | split; intros Hnull; discriminate Hnull || reflexivity ].

Lemma method_failure_carries (o : op) (w : world E) :
  status (fst (method_of o w)) = "failed" ->
  carries (input_parameters o) (fst (method_of o w)).
Proof.
  destruct o; cbn [method_of input_parameters]; unfold_method;
    (apply try_except_failed;
     [ to_return; split; reflexivity
     | by_clause; cbn [fst]; carried ]).
Qed.

(** C8, as the code has it.  On every failure of an operation that
    takes arguments, the detail field is a map holding each argument the
    caller passed; on a failure of an operation without arguments
    (create_new_tab, get_all_tabs, get_active_tab, quit_browser) the
    detail field is null. *)
Theorem failure_detail_carries_inputs (o : op) (browser : option (world E)) :
  status (fst (run_tool o browser)) = "failed" ->
  carries (input_parameters o) (fst (run_tool o browser)).
Proof.
  unfold run_tool, tool. destruct browser as [w |].
  - pose proof (method_failure_carries o w) as H.
    destruct (method_of o w) as [env w']. exact H.
  - intros _. destruct o; cbn [fst uninitialized_detail input_parameters];
      carried.
Qed.

(** ** Symbolic execution of a method *)

(** Decides [isinstance] on an exception built by the program. *)
Ltac known_class :=
  repeat match goal with
         | |- context [isinstance (mkExn ?c ?s) ?d] =>
             let b := eval cbv in (subclass c d) in
             change (isinstance (mkExn c s) d) with b
         end.

(** Unfolds the monad and the wrappers of the driver commands. *)
Ltac monad_unfold :=
  cbv beta iota zeta delta
    [try_except try_or bind ret raise returning call_method check_driver
     has_driver set_driver_none clear_driver engine_call window_handles
     current_window_handle switch_to_window get page_source execute_script
     find_element click close quit sleep list_item list_index
     switch_target_handle
     switch_if_given lookup_locator success_json fail_json element_truthy
     driver trace fst snd code status message detail data];
  known_class;
  cbn [Z.eqb Pos.eqb orb andb negb as_int as_str].

(** Splits on the next test or command whose outcome decides the path. *)
Ltac step :=
  match goal with
  | |- context [match ?x with _ => _ end] =>
      lazymatch x with
      | context [match _ with _ => _ end] => fail
      | _ => destruct x eqn:?
      end
  end; monad_unfold.

Ltac run_method := unfold_method; monad_unfold; repeat step.


(** Puts the recorded commands of a finished run in one list. *)
Ltac read_trace :=
  repeat rewrite <- app_assoc; cbn [app];
  first [ rewrite events_of_app | rewrite events_of_same ].

(** The commands of [switch_to_specific_tab]: the handles are fetched,
    and the window is switched; the session is left as alive as it was. *)
Definition switch_command (ev : event) : Prop :=
  ev_call ev = CWindowHandles \/ exists h, ev_call ev = CSwitchToWindow h.

Lemma switch_trace (target : pyval) (w : world E) (env : envelope)
  (w' : world E) :
  switch_to_specific_tab target w = (env, w') ->
  exists evs,
    trace w' = (trace w ++ evs)%list
    /\ Forall switch_command evs
    /\ (driver w = None <-> driver w' = None).
Proof.
  destruct w as [d t]. run_method.
  all: intros Hrun; inversion Hrun; subst; clear Hrun; cbn [trace driver].
  all: repeat rewrite <- app_assoc; cbn [app].
  all: try (exists []; rewrite app_nil_r; repeat split; auto; fail).
  all: eexists; split; [ reflexivity | split ].
  all: try (split; intros Hnone; discriminate Hnone).
  all: repeat (apply Forall_cons || apply Forall_nil).
  all: first [ left; reflexivity | right; eexists; reflexivity ].
Qed.

(** ** Failure codes *)
















(** ** Resolution of a tab index *)

Lemma list_item_in_range (l : list string) (i : Z) (w : world E) :
  0 <= i < len l ->
  exists h, nth_error l (Z.to_nat i) = Some h /\ list_item l i w = (inr h, w).
Proof.
  intros [Hlo Hhi]. unfold list_item, len in *.
  assert (Hneg : Z.ltb i 0 = false) by (apply Z.ltb_ge; exact Hlo).
  rewrite Hneg. cbv zeta. rewrite Hneg.
  destruct (nth_error l (Z.to_nat i)) as [h |] eqn:Hnth.
  - exists h. split; reflexivity.
  - apply nth_error_None in Hnth. lia.
Qed.

Lemma in_range_test (i n : Z) :
  Z.leb 0 i && Z.ltb i n = true <-> 0 <= i < n.
Proof.
  rewrite andb_true_iff, Z.leb_le, Z.ltb_lt. tauto.
Qed.

(** C2.  Let the handles just fetched be [all_handles], [N] of them.  For
    an integer identifier [i] with [0 <= i < N], the resolution step of
    [switch_to_specific_tab] returns the [i]-th handle, which is the
    window the method then switches to; for [i] outside that range the
    method sends no switch and fails with code 500 and a message that
    gives the valid range as 0 to [N - 1]. *)
Theorem switch_resolves_index (i : Z) (w : world E) (e e' : E)
  (all_handles : list string) :
  driver w = Some e ->
  eng_window_handles eng e = (inr all_handles, e') ->
  (0 <= i < len all_handles ->
   exists h r,
     nth_error all_handles (Z.to_nat i) = Some h
     /\ (forall w0, switch_target_handle (PyInt i) all_handles w0 = (inr h, w0))
     /\ events_of w (snd (switch_to_specific_tab (PyInt i) w))
        = [mkEvent CWindowHandles None; mkEvent (CSwitchToWindow h) r]
     /\ (r = None ->
         code (fst (switch_to_specific_tab (PyInt i) w)) = 200
         /\ field "target_handle"
              (detail (fst (switch_to_specific_tab (PyInt i) w)))
            = Some (PyStr h)))
  /\ (~ 0 <= i < len all_handles ->
      fst (switch_to_specific_tab (PyInt i) w)
      = fail_json 500
          ("Failed to switch to specific tab: Tab index " ++ string_of_Z i
           ++ " is invalid, only " ++ string_of_Z (len all_handles)
           ++ " tabs exist currently (index 0~"
           ++ string_of_Z (len all_handles - 1) ++ ")")
          (PyDict [("input_target", PyInt i)])
      /\ events_of w (snd (switch_to_specific_tab (PyInt i) w))
         = [mkEvent CWindowHandles None]).
Proof.
  intros Hdrv Hwh. destruct w as [d t]. cbn [driver] in Hdrv. subst d.
  split.
  - intros Hin.
    destruct (list_item_in_range all_handles i
                (mkWorld (Some e') (t ++ [mkEvent CWindowHandles None])%list)
                Hin) as (h & Hnth & Hitem).
    assert (Hres : forall w0,
               switch_target_handle (PyInt i) all_handles w0 = (inr h, w0)).
    { intros w0. unfold switch_target_handle. cbn [as_int].
      rewrite (proj2 (in_range_test i (len all_handles)) Hin).
      destruct (list_item_in_range all_handles i w0 Hin) as (h' & Hnth' & Hit).
      rewrite Hnth in Hnth'. inversion Hnth'. subst h'. exact Hit. }
    unfold switch_to_specific_tab.
    cbv beta iota zeta delta
      [try_except bind ret check_driver window_handles engine_call
       switch_to_window driver trace].
    rewrite Hwh. cbv beta iota zeta. rewrite Hres. cbv beta iota zeta.
    destruct (eng_switch_to_window eng h e') as [[x | []] e''] eqn:Hsw.
    + exists h, (Some x). cbn [fst snd returning].
      repeat split; try assumption; try discriminate.
      read_trace. reflexivity.
    + exists h, None. cbn [fst snd].
      repeat split; try assumption.
      read_trace. reflexivity.
  - intros Hout.
    assert (Hb : Z.leb 0 i && Z.ltb i (len all_handles) = false).
    { destruct (Z.leb 0 i && Z.ltb i (len all_handles)) eqn:Hb;
        [ apply in_range_test in Hb; contradiction | reflexivity ]. }
    unfold switch_to_specific_tab, switch_target_handle.
    cbv beta iota zeta delta
      [try_except bind ret raise check_driver window_handles engine_call
       switch_to_window driver trace as_int].
    rewrite Hwh. cbv beta iota zeta. rewrite Hb.
    cbn [fst snd returning exn_str py_str py_repr].
    split; [ reflexivity | read_trace; reflexivity ].
Qed.

(** ** Boolean identifiers *)








(** ** Reading the current tab *)

(** C9.  Called without a target, [get_specific_tab_page_content] sends
    no switch command: it reads the handle of the current context and
    then the page source.  When it succeeds, the data field is the markup
    the driver returned for that context, whole, and the detail field
    records its length under content_length. *)
Theorem content_of_current_context (w : world E) :
  let r := get_specific_tab_page_content PyNone w in
  (forall ev h, In ev (events_of w (snd r)) -> ev_call ev <> CSwitchToWindow h)
  /\ (status (fst r) = "success" ->
      exists e h e1 page e2,
        driver w = Some e
        /\ eng_current_window_handle eng e = (inr h, e1)
        /\ eng_page_source eng e1 = (inr page, e2)
        /\ events_of w (snd r)
           = [mkEvent CCurrentWindowHandle None; mkEvent CPageSource None]
        /\ data (fst r) = PyStr page
        /\ field "content_length" (detail (fst r)) = Some (PyInt (strlen page))
        /\ driver (snd r) = Some e2).
Proof.
  cbv zeta. destruct w as [d t]. run_method.
  all: read_trace.
  all: split;
    [ intros ev h Hin; cbn [In] in Hin;
      repeat match type of Hin with
             | _ \/ _ => destruct Hin as [Hin | Hin]
             end;
      first [ contradiction Hin | subst ev; cbn [ev_call]; discriminate ]
    | intros Hs; try discriminate Hs ].
  do 5 eexists. repeat split; try eassumption; reflexivity.
Qed.

(** ** Quitting *)

(** C6.  [quit_browser] on a session that is already invalidated returns
    the success envelope and changes nothing.  Whenever a call of
    [quit_browser] returns code 200, the call that follows it returns
    code 200 as well and sends no command; and the first call returns
    code 200 when the driver carries out the quit command. *)
Theorem quit_browser_idempotent (w : world E) :
  let r1 := quit_browser w in
  let r2 := quit_browser (snd r1) in
  (driver w = None ->
   fst r1 = success_json "Browser exited successfully, resources released"
              PyNone PyNone
   /\ snd r1 = w)
  /\ (code (fst r1) = 200 ->
      driver (snd r1) = None
      /\ code (fst r2) = 200 /\ status (fst r2) = "success"
      /\ snd r2 = snd r1)
  /\ (forall e e', driver w = Some e -> eng_quit eng e = (inr tt, e') ->
      code (fst r1) = 200 /\ status (fst r1) = "success").
Proof.
  cbv zeta. destruct w as [d t]. run_method.
  all: cbn [driver].
  all: repeat split; try reflexivity; try discriminate.
  all: intros; try discriminate; try congruence.
Qed.

(** ** Which operations invalidate the session *)

(** A computation leaves [self.driver] set if it was set, and unset if
    it was unset. *)
Definition keeps_session {A} (m : M A) : Prop :=
  forall w r w', m w = (r, w') -> (driver w = None <-> driver w' = None).

Lemma keeps_ret {A} (a : A) : keeps_session (ret a).
Proof. intros w r w' H. unfold ret in H. inversion H. subst. tauto. Qed.

Lemma keeps_raise {A} (cls : exn_class) (text : string) :
  keeps_session (@raise A cls text).
Proof. intros w r w' H. unfold raise in H. inversion H. subst. tauto. Qed.

Lemma keeps_bind {A B} (m : M A) (k : A -> M B) :
  keeps_session m -> (forall a, keeps_session (k a)) ->
  keeps_session (bind m k).
Proof.
  intros Hm Hk w r w' H. unfold bind in H.
  destruct (m w) as [[e | a] w1] eqn:Hrun.
  - inversion H. subst. exact (Hm _ _ _ Hrun).
  - pose proof (Hm _ _ _ Hrun). pose proof (Hk a _ _ _ H). tauto.
Qed.

Lemma keeps_check_driver : keeps_session check_driver.
Proof.
  intros w r w' H.
  assert (Hsame : w' = w).
  { unfold check_driver in H. destruct (driver w); inversion H; reflexivity. }
  subst w'. tauto.
Qed.

Lemma keeps_engine_call {A} (attr : string) (c : call)
  (f : E -> outcome A * E) : keeps_session (engine_call attr c f).
Proof.
  intros w r w' H. unfold engine_call in H.
  destruct (driver w) as [e |] eqn:Hd.
  - destruct (f e) as [r0 e']. inversion H. cbn [driver].
    split; intros Hn; discriminate Hn.
  - inversion H. subst. rewrite Hd. tauto.
Qed.

Lemma keeps_try_or {A} (m : M A) (dflt : A) :
  keeps_session m -> keeps_session (try_or m dflt).
Proof.
  intros Hm w r w' H. unfold try_or in H.
  destruct (m w) as [[e | a] w1] eqn:Hrun; inversion H; subst;
    exact (Hm _ _ _ Hrun).
Qed.

Lemma keeps_call_switch (target : pyval) :
  keeps_session (call_method (switch_to_specific_tab target)).
Proof.
  intros w r w' H. unfold call_method in H.
  destruct (switch_to_specific_tab target w) as [env w1] eqn:Hrun.
  inversion H. subst.
  destruct (switch_trace _ _ _ _ Hrun) as (_ & _ & _ & Hk). exact Hk.
Qed.

(** Proves [keeps_session] for a block that never assigns [self.driver]. *)
Ltac keeps :=
  repeat
    (cbv zeta;
     unfold window_handles, current_window_handle, switch_to_window, get,
       page_source, execute_script, find_element, click, close, quit, sleep,
       list_item, list_index, lookup_locator, switch_target_handle,
       switch_if_given;
     first
       [ apply keeps_ret
       | apply keeps_raise
       | apply keeps_check_driver
       | apply keeps_engine_call
       | apply keeps_call_switch
       | apply keeps_try_or
       | apply keeps_bind; [| intros ]
       | match goal with
         | |- keeps_session (match ?x with _ => _ end) => destruct x
         end ]).

Lemma try_except_keeps (body : M envelope)
  (handler : exn -> world E -> envelope * world E) :
  keeps_session body ->
  (forall e w, snd (handler e w) = w) ->
  forall w, driver w = None <-> driver (snd (try_except body handler w)) = None.
Proof.
  intros Hb Hh w. unfold try_except.
  destruct (body w) as [[e | a] w1] eqn:Hrun.
  - rewrite Hh. exact (Hb _ _ _ Hrun).
  - exact (Hb _ _ _ Hrun).
Qed.

(** The operations that assign [self.driver]. *)
Definition invalidating (o : op) : bool :=
  match o with
  | CloseSpecificTab _ | QuitBrowser => true
  | _ => false
  end.

Lemma other_methods_keep_session (o : op) (w : world E) :
  invalidating o = false ->
  (driver w = None <-> driver (snd (method_of o w)) = None).
Proof.
  intros Hinv.
  destruct o; try discriminate Hinv; cbn [method_of]; unfold_method;
    (apply try_except_keeps; [ keeps | by_clause; reflexivity ]).
Qed.

(** What [close_specific_tab] does when a command it sent was answered
    with an error that says the browsing context is gone. *)
Lemma close_detects_lost_context (target : pyval) (w : world E) :
  Forall
    (fun ev =>
       forall x,
         ev_raised ev = Some x ->
         isinstance x WebDriverException = true ->
         context_gone x = true ->
         driver (snd (close_specific_tab target w)) = None
         /\ code (fst (close_specific_tab target w)) = 500
         /\ status (fst (close_specific_tab target w)) = "failed")
    (events_of w (snd (close_specific_tab target w))).
Proof.
  destruct w as [d t]. run_method.
  all: read_trace.
  all: repeat (apply Forall_cons || apply Forall_nil).
  all: cbn [ev_raised]; intros x Hr Hi Hg.
  all: try discriminate Hr.
  all: inversion Hr; subst.
  all: first [ repeat split; reflexivity | congruence ].
Qed.

(** C3, as the code has it.  Of all operations only [close_specific_tab]
    reacts to a lost browsing context: when a command it sent fails with
    a [WebDriverException] whose text contains "Browsing context has been
    discarded" or "NoSuchWindowError", it returns a failure envelope with
    code 500 and clears the driver.  Every operation other than
    [close_specific_tab] and [quit_browser] leaves the driver set if it
    was set, whatever the commands it sent were answered with. *)
Theorem only_close_detects_lost_context :
  (forall target w ev x,
      In ev (events_of w (snd (close_specific_tab target w))) ->
      ev_raised ev = Some x ->
      isinstance x WebDriverException = true ->
      context_gone x = true ->
      driver (snd (close_specific_tab target w)) = None
      /\ code (fst (close_specific_tab target w)) = 500
      /\ status (fst (close_specific_tab target w)) = "failed")
  /\ (forall o w,
         invalidating o = false ->
         (driver w = None <-> driver (snd (method_of o w)) = None)).
Proof.
  split.
  - intros target w ev x Hin.
    pose proof (close_detects_lost_context target w) as Hall.
    rewrite Forall_forall in Hall. exact (Hall ev Hin x).
  - exact other_methods_keep_session.
Qed.

(** ** After the last tab is closed *)

(** The failure message of each method for an error with text [text]
    that is a plain [Exception]. *)
Definition failure_message (o : op) (text : string) : string :=
  match o with
  | CreateNewTab => "Failed to create new tab: " ++ text
  | GetAllTabs => "Failed to get all tabs: " ++ text
  | GetActiveTab => "Failed to get active tab: " ++ text
  | SwitchToSpecificTab _ => "Failed to switch to specific tab: " ++ text
  | OpenUrlInSpecificTab _ _ =>
      "Failed to open web page in specific tab: " ++ text
  | GetSpecificTabPageContent _ => "Failed to get tab page content: " ++ text
  | ScrollMouseWheelDown _ _ => "Failed to scroll mouse wheel down: " ++ text
  | ScrollMouseWheelUp _ _ => "Failed to scroll mouse wheel up: " ++ text
  | ClickElementByXpath _ _ => "Failed to click element by XPath: " ++ text
  | ClickElement _ locator_type _ =>
      "Failed to click element by " ++ py_str repr_str locator_type ++ ": "
      ++ text
  | CloseSpecificTab _ => "Failed to close specific tab: " ++ text
  | QuitBrowser => "Failed to quit browser: " ++ text
  end.

(** Without a driver, every method but [quit_browser] fails at its first
    statement with code 500 and the message that the driver is not
    initialized; [quit_browser] succeeds.  None of them sends a command
    or changes the instance. *)
Lemma without_driver (o : op) (w : world E) :
  driver w = None ->
  snd (method_of o w) = w
  /\ (o <> QuitBrowser ->
      code (fst (method_of o w)) = 500
      /\ status (fst (method_of o w)) = "failed"
      /\ message (fst (method_of o w))
         = failure_message o "Browser driver not initialized")
  /\ (o = QuitBrowser ->
      code (fst (method_of o w)) = 200
      /\ status (fst (method_of o w)) = "success").
Proof.
  intros Hd. destruct w as [d t]. cbn [driver] in Hd. subst d.
  destruct o; cbn [method_of failure_message]; unfold_method; monad_unfold;
    cbn [exn_str];
    (split; [ reflexivity | split; intros Ho ]);
    try (repeat split; reflexivity);
    try discriminate Ho; try (contradiction Ho; reflexivity).
Qed.

Lemma close_only_tab_run (target : pyval) (t : list event) (e e1 : E)
  (h : string) :
  eng_window_handles eng e = (inr [h], e1) ->
  code (fst (close_specific_tab target (mkWorld (Some e) t))) = 200 ->
  driver (snd (close_specific_tab target (mkWorld (Some e) t))) = None
  /\ last_event
       (events_of (mkWorld (Some e) t)
          (snd (close_specific_tab target (mkWorld (Some e) t))))
     = Some (mkEvent CClose None).
Proof.
  intros Hwh. unfold_method. monad_unfold. rewrite Hwh. monad_unfold.
  change (len [h]) with 1. monad_unfold.
  repeat step.
  all: intros Hcode; try discriminate Hcode.
  all: read_trace; split; reflexivity.
Qed.

(** C4, as the code has it.  When [close_specific_tab] succeeds with
    exactly one tab open, the driver is cleared and the close command is
    the last one sent: no switch follows it.  From that state every
    operation other than [quit_browser] fails with code 500 and the
    message that the driver is not initialized, [quit_browser] succeeds
    with code 200, and none of them sends a command or changes the
    instance. *)
Theorem closing_the_only_tab (target : pyval) (w : world E) (e e1 : E)
  (h : string) :
  driver w = Some e ->
  eng_window_handles eng e = (inr [h], e1) ->
  code (fst (close_specific_tab target w)) = 200 ->
  let w' := snd (close_specific_tab target w) in
  driver w' = None
  /\ last_event (events_of w w') = Some (mkEvent CClose None)
  /\ forall o,
       snd (method_of o w') = w'
       /\ (o <> QuitBrowser ->
           code (fst (method_of o w')) = 500
           /\ status (fst (method_of o w')) = "failed"
           /\ message (fst (method_of o w'))
              = failure_message o "Browser driver not initialized")
       /\ (o = QuitBrowser ->
           code (fst (method_of o w')) = 200
           /\ status (fst (method_of o w')) = "success").
Proof.
  intros Hd Hwh Hcode. cbv zeta.
  destruct w as [d t]. cbn [driver] in Hd. subst d.
  destruct (close_only_tab_run target t e e1 h Hwh Hcode) as [Hnone Hlast].
  split; [ exact Hnone |]. split; [ exact Hlast |].
  intros o. apply without_driver. exact Hnone.
Qed.

(** ** Closing one of several tabs *)

Section TabModel.

(** What the program relies on in a working browser, in terms of the
    tabs it has open and the one that is current: while a tab is open the
    handles are listed as they are; the current handle is reported while
    there is one; switching to an open tab makes it current; closing
    removes the current tab from the list.  Listing, reporting and
    switching change neither the tabs nor, the last apart, the current
    one. *)
Variable tabs : E -> list string.
Variable current : E -> option string.

Record tab_model : Prop := {
  tm_window_handles :
    forall e, tabs e <> [] ->
      exists e', eng_window_handles eng e = (inr (tabs e), e')
                 /\ tabs e' = tabs e /\ current e' = current e;
  tm_current :
    forall e h, tabs e <> [] -> current e = Some h ->
      exists e', eng_current_window_handle eng e = (inr h, e')
                 /\ tabs e' = tabs e /\ current e' = current e;
  tm_switch :
    forall e h, In h (tabs e) ->
      exists e', eng_switch_to_window eng h e = (inr tt, e')
                 /\ tabs e' = tabs e /\ current e' = Some h;
  tm_close :
    forall e h, tabs e <> [] -> current e = Some h ->
      exists e', eng_close eng e = (inr tt, e')
                 /\ tabs e' = remove_one h (tabs e)
}.

(** The tab an identifier stands for in a state of the browser. *)
Definition designates (target : pyval) (e : E) (h : string) : Prop :=
  match target with
  | PyNone => current e = Some h /\ In h (tabs e)
  | _ =>
      match as_int target with
      | Some i => 0 <= i /\ nth_error (tabs e) (Z.to_nat i) = Some h
      | None => as_str target = Some h /\ In h (tabs e)
      end
  end.

Lemma str_in_In (x : string) (l : list string) :
  str_in x l = true <-> In x l.
Proof.
  induction l as [| y l IH]; cbn [str_in In].
  - split; [ discriminate | contradiction ].
  - rewrite orb_true_iff, IH, String.eqb_eq. split; intros [H | H]; auto.
Qed.

Lemma index_of_In (x : string) (l : list string) :
  In x l -> exists n, index_of x l = Some n.
Proof.
  induction l as [| y l IH]; cbn [index_of In].
  - contradiction.
  - intros H. destruct (String.eqb x y) eqn:Heq.
    + exists O. reflexivity.
    + destruct H as [H | H].
      * subst y. rewrite String.eqb_refl in Heq. discriminate Heq.
      * destruct (IH H) as [n Hn]. rewrite Hn. exists (S n). reflexivity.
Qed.

Lemma remove_one_length (x : string) (l : list string) :
  In x l -> S (List.length (remove_one x l)) = List.length l.
Proof.
  induction l as [| y l IH]; cbn [remove_one In List.length].
  - contradiction.
  - intros H. destruct (String.eqb x y) eqn:Heq.
    + reflexivity.
    + destruct H as [H | H].
      * subst y. rewrite String.eqb_refl in Heq. discriminate Heq.
      * cbn [List.length]. rewrite (IH H). reflexivity.
Qed.

Lemma get_active_tab_run (e : E) (t : list event) (h : string) :
  tab_model -> current e = Some h -> In h (tabs e) ->
  code (fst (get_active_tab (mkWorld (Some e) t))) = 200
  /\ data (fst (get_active_tab (mkWorld (Some e) t))) = PyStr h.
Proof.
  intros Hm Hcur Hin.
  assert (Hne : tabs e <> []) by (intros Hnil; rewrite Hnil in Hin; exact Hin).
  destruct (tm_current Hm e h Hne Hcur) as (e1 & Hcwh & Ht1 & Hc1).
  assert (Hne1 : tabs e1 <> []) by (rewrite Ht1; exact Hne).
  destruct (tm_window_handles Hm e1 Hne1) as (e2 & Hwh & _ & _).
  destruct (index_of_In h (tabs e1)) as [n Hn]; [ rewrite Ht1; exact Hin |].
  unfold_method. monad_unfold. rewrite Hcwh. monad_unfold.
  rewrite Hwh. monad_unfold. rewrite Hn. monad_unfold.
  split; reflexivity.
Qed.

(** What a working browser does from the switch to the tab to close up
    to the switch to the first tab left. *)
Lemma model_close_sequence (e2 : E) (l : list string) (h : string) :
  tab_model ->
  tabs e2 = l -> In h l -> 1 < len l ->
  exists e3 e4 e5 e6 first rest,
    eng_switch_to_window eng h e2 = (inr tt, e3)
    /\ eng_close eng e3 = (inr tt, e4)
    /\ eng_window_handles eng e4 = (inr (first :: rest), e5)
    /\ eng_switch_to_window eng first e5 = (inr tt, e6)
    /\ tabs e6 = remove_one h l
    /\ tabs e6 = first :: rest
    /\ current e6 = Some first.
Proof.
  intros Hm Ht2 Hin Hlen.
  destruct (tm_switch Hm e2 h) as (e3 & Hsw & Ht3 & Hc3);
    [ rewrite Ht2; exact Hin |].
  assert (Hne3 : tabs e3 <> []).
  { rewrite Ht3, Ht2. intros Hnil. rewrite Hnil in Hin. exact Hin. }
  destruct (tm_close Hm e3 h Hne3 Hc3) as (e4 & Hcl & Ht4).
  rewrite Ht3, Ht2 in Ht4.
  destruct (tabs e4) as [| first rest] eqn:Hrest.
  { pose proof (remove_one_length h l Hin) as Hl.
    rewrite <- Ht4 in Hl. unfold len in Hlen. cbn [List.length] in Hl. lia. }
  assert (Hne4 : tabs e4 <> []) by (rewrite Hrest; discriminate).
  destruct (tm_window_handles Hm e4 Hne4) as (e5 & Hwh & Ht5 & _).
  rewrite Hrest in Hwh, Ht5.
  destruct (tm_switch Hm e5 first) as (e6 & Hsw6 & Ht6 & Hc6);
    [ rewrite Ht5; left; reflexivity |].
  exists e3, e4, e5, e6, first, rest.
  rewrite Ht6, Ht5. repeat split; assumption.
Qed.

(** Rewrites with the answer of a command and runs on. *)
Ltac answer H := rewrite H; monad_unfold.

(** The end of a run that closed [h] and switched to [first] in [e6]. *)
Ltac closed_and_switched e6 first Hrem Hfirst Hcur6 :=
  repeat rewrite <- app_assoc; cbn [app];
  eexists; exists e6, first; eexists;
  split; [ reflexivity |];
  split; [ reflexivity |];
  split; [ exact Hrem |];
  split; [ rewrite Hfirst; reflexivity |];
  split; [ exact Hcur6 | reflexivity ].

(** The run of [close_specific_tab] on the tab at index [i]. *)
Ltac close_by_index i e Hm Hlen Hdes Hwh Ht1 Hcount0 Hcount1 :=
  let Hpos := fresh "Hpos" in
  let Hnth := fresh "Hnth" in
  destruct Hdes as [Hpos Hnth];
  let Hin := fresh "Hin" in
  pose proof (nth_error_In _ _ Hnth) as Hin;
  let Hrange := fresh "Hrange" in
  assert (Hrange : Z.leb 0 i && Z.ltb i (len (tabs e)) = true)
    by (apply in_range_test; split; [ exact Hpos |];
        assert (Z.to_nat i < List.length (tabs e))%nat
          by (apply nth_error_Some; rewrite Hnth; discriminate);
        unfold len; lia);
  let Hneg := fresh "Hneg" in
  assert (Hneg : Z.ltb i 0 = false) by (apply Z.ltb_ge; exact Hpos);
  let e3 := fresh "e" in let e4 := fresh "e" in
  let e5 := fresh "e" in let e6 := fresh "e" in
  let first := fresh "first" in let rest := fresh "rest" in
  let Hsw := fresh "Hsw" in let Hcl := fresh "Hcl" in
  let Hwh5 := fresh "Hwh" in let Hsw6 := fresh "Hsw" in
  let Hrem := fresh "Hrem" in let Hfirst := fresh "Hfirst" in
  let Hcur6 := fresh "Hcur" in
  destruct (model_close_sequence _ _ _ Hm Ht1 Hin Hlen)
    as (e3 & e4 & e5 & e6 & first & rest & Hsw & Hcl & Hwh5 & Hsw6
        & Hrem & Hfirst & Hcur6);
  unfold_method; monad_unfold; answer Hwh; answer Hcount0;
  answer Hrange; repeat answer Hneg; answer Hnth; answer Hsw; answer Hcount1;
  answer Hcl; answer Hwh5; answer Hsw6;
  closed_and_switched e6 first Hrem Hfirst Hcur6.

(** The run of [close_specific_tab] on one of several tabs. *)
Lemma close_one_of_many_run (target : pyval) (t : list event) (e : E)
  (h : string) :
  tab_model ->
  1 < len (tabs e) ->
  designates target e h ->
  exists env e' first evs,
    close_specific_tab target (mkWorld (Some e) t)
    = (env, mkWorld (Some e') (t ++ evs)%list)
    /\ code env = 200
    /\ tabs e' = remove_one h (tabs e)
    /\ hd_error (tabs e') = Some first
    /\ current e' = Some first
    /\ last_event evs = Some (mkEvent (CSwitchToWindow first) None).
Proof.
  intros Hm Hlen Hdes.
  assert (Hne : tabs e <> []).
  { intros Hnil. rewrite Hnil in Hlen. cbn in Hlen. lia. }
  destruct (tm_window_handles Hm e Hne) as (e1 & Hwh & Ht1 & Hc1).
  assert (Hcount0 : Z.eqb (len (tabs e)) 0 = false) by (apply Z.eqb_neq; lia).
  assert (Hcount1 : Z.eqb (len (tabs e)) 1 = false) by (apply Z.eqb_neq; lia).
  destruct target as [| b | i | s | l | d];
    cbn [designates as_int as_str] in Hdes.
  - (* the current tab *)
    destruct Hdes as [Hcur Hin].
    assert (Hne1 : tabs e1 <> []) by (rewrite Ht1; exact Hne).
    destruct (tm_current Hm e1 h Hne1) as (e2 & Hcwh & Ht2 & _);
      [ rewrite Hc1; exact Hcur |].
    rewrite Ht1 in Ht2.
    destruct (model_close_sequence e2 (tabs e) h Hm Ht2 Hin Hlen)
      as (e3 & e4 & e5 & e6 & first & rest & Hsw & Hcl & Hwh5 & Hsw6
          & Hrem & Hfirst & Hcur6).
    unfold_method. monad_unfold. answer Hwh. answer Hcount0.
    answer Hcwh. answer Hsw. answer Hcount1. answer Hcl. answer Hwh5.
    answer Hsw6. closed_and_switched e6 first Hrem Hfirst Hcur6.
  - (* a boolean, read as an index *)
    destruct b.
    + close_by_index 1 e Hm Hlen Hdes Hwh Ht1 Hcount0 Hcount1.
    + close_by_index 0 e Hm Hlen Hdes Hwh Ht1 Hcount0 Hcount1.
  - (* an index *)
    close_by_index i e Hm Hlen Hdes Hwh Ht1 Hcount0 Hcount1.
  - (* a handle *)
    destruct Hdes as [Hs Hin]. inversion Hs. subst s.
    assert (Hstr : str_in h (tabs e) = true) by (apply str_in_In; exact Hin).
    destruct (model_close_sequence e1 (tabs e) h Hm Ht1 Hin Hlen)
      as (e3 & e4 & e5 & e6 & first & rest & Hsw & Hcl & Hwh5 & Hsw6
          & Hrem & Hfirst & Hcur6).
    unfold_method. monad_unfold. answer Hwh. answer Hcount0.
    answer Hstr. answer Hsw. answer Hcount1. answer Hcl. answer Hwh5.
    answer Hsw6. closed_and_switched e6 first Hrem Hfirst Hcur6.
  - destruct Hdes as [Hs _]. discriminate Hs.
  - destruct Hdes as [Hs _]. discriminate Hs.
Qed.

(** C5.  With a working browser that has more than one tab open, closing
    the tab an identifier stands for succeeds, leaves the driver in
    place, removes that tab, and ends with a switch to the first handle
    of the list fetched after the close, which is then the current tab;
    a call of [get_active_tab] right after it succeeds and reports that
    handle. *)
Theorem closing_one_of_many (target : pyval) (w : world E) (e : E)
  (h : string) :
  tab_model ->
  driver w = Some e ->
  1 < len (tabs e) ->
  designates target e h ->
  let r := close_specific_tab target w in
  exists e' first,
    code (fst r) = 200
    /\ driver (snd r) = Some e'
    /\ tabs e' = remove_one h (tabs e)
    /\ hd_error (tabs e') = Some first
    /\ current e' = Some first
    /\ last_event (events_of w (snd r))
       = Some (mkEvent (CSwitchToWindow first) None)
    /\ code (fst (get_active_tab (snd r))) = 200
    /\ data (fst (get_active_tab (snd r))) = PyStr first.
Proof.
  intros Hm Hd Hlen Hdes. cbv zeta.
  destruct w as [d t]. cbn [driver] in Hd. subst d.
  destruct (close_one_of_many_run target t e h Hm Hlen Hdes)
    as (env & e' & first & evs & Hrun & Hcode & Hrem & Hhd & Hcur & Hlast).
  rewrite Hrun. cbn [fst snd driver].
  exists e', first.
  assert (Hin : In first (tabs e')).
  { destruct (tabs e') as [| x l]; [ discriminate Hhd |].
    inversion Hhd. left. reflexivity. }
  destruct (get_active_tab_run e' (t ++ evs)%list first Hm Hcur Hin)
    as [Hcode' Hdata'].
  rewrite events_of_app.
  repeat split; assumption || reflexivity.
Qed.

End TabModel.

End Browser.

(** ** The properties on concrete sessions *)

(** Two tabs open, the first one current, one link on the page. *)
Definition two_tabs : world ref_browser :=
  mkWorld (Some (mkRef ["A"; "B"] (Some "A") 0 "<html></html>" ["//a"])) [].

(** A single tab open. *)
Definition one_tab : world ref_browser :=
  mkWorld (Some (mkRef ["A"] (Some "A") 0 "<html></html>" [])) [].

(** The instance still holds its driver, but the browser behind it is
    gone (its window was closed from outside). *)
Definition lost_session : world ref_browser :=
  mkWorld (Some (mkRef [] None 0 EmptyString [])) [].

(** The instance after its driver was cleared. *)
Definition invalidated : world ref_browser := mkWorld None [].




(** The reference browser is a working browser in the sense of
    [tab_model], with its own list of tabs and current tab. *)
Lemma ref_tab_model : tab_model ref_engine rb_tabs rb_current.
Proof.
  constructor.
  - intros b Hne. exists b. cbn [eng_window_handles ref_engine].
    unfold ref_window_handles.
    destruct (rb_tabs b); [ contradiction Hne; reflexivity |].
    repeat split.
  - intros b h Hne Hcur. exists b.
    cbn [eng_current_window_handle ref_engine].
    unfold ref_current_window_handle, in_context. rewrite Hcur.
    destruct (rb_tabs b); [ contradiction Hne; reflexivity |].
    repeat split; try reflexivity; exact Hcur.
  - intros b h Hin.
    exists (mkRef (rb_tabs b) (Some h) (rb_next b) (rb_source b)
              (rb_present b)).
    cbn [eng_switch_to_window ref_engine]. unfold ref_switch_to_window.
    pose proof (proj2 (str_in_In h (rb_tabs b)) Hin) as Hstr.
    destruct (rb_tabs b); [ contradiction Hin |].
    rewrite Hstr. repeat split.
  - intros b h Hne Hcur.
    exists (mkRef (remove_one h (rb_tabs b)) None (rb_next b) (rb_source b)
              (rb_present b)).
    cbn [eng_close ref_engine]. unfold ref_close, in_context. rewrite Hcur.
    destruct (rb_tabs b); [ contradiction Hne; reflexivity |].
    repeat split.
Qed.

(** Switching to index 5 with two tabs open fails, and the message gives
    the range of valid indices as 0 to 1. *)
Lemma switch_to_5_of_2 :
  fst (switch_to_specific_tab ref_engine plain_repr (PyInt 5) two_tabs)
  = fail_json 500
      "Failed to switch to specific tab: Tab index 5 is invalid, only 2 tabs exist currently (index 0~1)"
      (PyDict [("input_target", PyInt 5)])
  /\ events_of two_tabs
       (snd (switch_to_specific_tab ref_engine plain_repr (PyInt 5) two_tabs))
     = [mkEvent CWindowHandles None].
Proof.
  apply (proj2 (switch_resolves_index ref_engine plain_repr 5 two_tabs
                  _ _ _ eq_refl eq_refl)).
  unfold len. cbn. lia.
Defined.

(** [get_all_tabs] on a lost session: the command is answered with an
    error that says the browsing context is gone, the call fails, and the
    driver stays in place. *)
Lemma get_all_tabs_keeps_lost_driver :
  events_of lost_session (snd (get_all_tabs ref_engine lost_session))
  = [mkEvent CWindowHandles (Some session_gone)]
  /\ isinstance session_gone WebDriverException = true
  /\ context_gone session_gone = true
  /\ code (fst (get_all_tabs ref_engine lost_session)) = 500
  /\ status (fst (get_all_tabs ref_engine lost_session)) = "failed"
  /\ driver (snd (get_all_tabs ref_engine lost_session))
     = driver lost_session
  /\ driver lost_session <> None.
Proof.
  repeat split; try reflexivity. discriminate.
Qed.

(** [close_specific_tab] on a lost session clears the driver. *)
Lemma close_on_lost_session :
  driver (snd (close_specific_tab ref_engine plain_repr PyNone lost_session))
  = None
  /\ code (fst (close_specific_tab ref_engine plain_repr PyNone lost_session))
     = 500
  /\ status (fst (close_specific_tab ref_engine plain_repr PyNone
                    lost_session))
     = "failed".
Proof.
  apply (proj1 (only_close_detects_lost_context ref_engine plain_repr)
           PyNone lost_session
           (mkEvent CWindowHandles (Some session_gone)) session_gone).
  - left. reflexivity.
  - reflexivity.
  - reflexivity.
  - reflexivity.
Defined.

(** After the only tab was closed, [quit_browser] does not fail: it
    returns code 200. *)
Lemma quit_after_only_tab_closed :
  code (fst (close_specific_tab ref_engine plain_repr PyNone one_tab)) = 200
  /\ driver (snd (close_specific_tab ref_engine plain_repr PyNone one_tab))
     = None
  /\ code (fst (run_tool ref_engine plain_repr QuitBrowser
                  (Some (snd (close_specific_tab ref_engine plain_repr
                                PyNone one_tab)))))
     = 200
  /\ status (fst (run_tool ref_engine plain_repr QuitBrowser
                    (Some (snd (close_specific_tab ref_engine plain_repr
                                  PyNone one_tab)))))
     = "success".
Proof. repeat split; reflexivity. Qed.

(** Closing the only tab of the reference browser. *)
Lemma closing_the_only_tab_of_one :
  driver (snd (close_specific_tab ref_engine plain_repr PyNone one_tab))
  = None
  /\ last_event
       (events_of one_tab
          (snd (close_specific_tab ref_engine plain_repr PyNone one_tab)))
     = Some (mkEvent CClose None)
  /\ code (fst (get_all_tabs ref_engine
                  (snd (close_specific_tab ref_engine plain_repr PyNone
                          one_tab))))
     = 500.
Proof.
  pose proof (closing_the_only_tab ref_engine plain_repr PyNone one_tab
                _ _ "A" eq_refl eq_refl eq_refl) as H.
  cbv zeta in H. destruct H as (Hnone & Hlast & Hall).
  split; [ exact Hnone |]. split; [ exact Hlast |].
  destruct (Hall GetAllTabs) as (_ & Hfail & _).
  apply Hfail. discriminate.
Defined.

(** Closing the current one of the two tabs of the reference browser. *)
Lemma closing_one_of_two :
  exists e' first,
    code (fst (close_specific_tab ref_engine plain_repr PyNone two_tabs))
    = 200
    /\ driver (snd (close_specific_tab ref_engine plain_repr PyNone
                      two_tabs))
       = Some e'
    /\ rb_tabs e' = remove_one "A" ["A"; "B"]
    /\ hd_error (rb_tabs e') = Some first
    /\ rb_current e' = Some first
    /\ last_event
         (events_of two_tabs
            (snd (close_specific_tab ref_engine plain_repr PyNone
                    two_tabs)))
       = Some (mkEvent (CSwitchToWindow first) None)
    /\ code (fst (get_active_tab ref_engine plain_repr
                    (snd (close_specific_tab ref_engine plain_repr PyNone
                            two_tabs))))
       = 200
    /\ data (fst (get_active_tab ref_engine plain_repr
                    (snd (close_specific_tab ref_engine plain_repr PyNone
                            two_tabs))))
       = PyStr first.
Proof.
  apply (closing_one_of_many ref_engine plain_repr rb_tabs rb_current
           PyNone two_tabs _ "A" ref_tab_model eq_refl).
  - reflexivity.
  - split; [ reflexivity | left; reflexivity ].
Defined.

(** Quitting the reference browser twice. *)
Lemma quitting_twice :
  code (fst (quit_browser ref_engine two_tabs)) = 200
  /\ code (fst (quit_browser ref_engine
                  (snd (quit_browser ref_engine two_tabs))))
     = 200.
Proof.
  pose proof (quit_browser_idempotent ref_engine two_tabs) as H.
  cbv zeta in H. destruct H as (_ & Hagain & Hfirst).
  destruct (Hfirst _ _ eq_refl eq_refl) as [Hcode _].
  split; [ exact Hcode |].
  destruct (Hagain Hcode) as (_ & Hcode2 & _). exact Hcode2.
Defined.



(** [create_new_tab] without a driver fails with a null detail field. *)
Lemma create_new_tab_failure_detail_null :
  status (fst (run_tool ref_engine plain_repr CreateNewTab (Some invalidated)))
  = "failed"
  /\ detail (fst (run_tool ref_engine plain_repr CreateNewTab
                    (Some invalidated)))
     = PyNone.
Proof. split; reflexivity. Qed.

(** The failure of switching to index 5 carries the index. *)
Lemma switch_failure_carries_target :
  carries [("input_target", PyInt 5)]
    (fst (run_tool ref_engine plain_repr (SwitchToSpecificTab (PyInt 5))
            (Some two_tabs))).
Proof.
  apply (failure_detail_carries_inputs ref_engine plain_repr
           (SwitchToSpecificTab (PyInt 5)) (Some two_tabs)).
  reflexivity.
Defined.

(** Reading the page of the current tab of the reference browser. *)
Lemma content_of_first_tab :
  data (fst (get_specific_tab_page_content ref_engine plain_repr PyNone
               two_tabs))
  = PyStr "<html></html>"
  /\ field "content_length"
       (detail (fst (get_specific_tab_page_content ref_engine plain_repr
                       PyNone two_tabs)))
     = Some (PyInt 13).
Proof.
  pose proof (content_of_current_context ref_engine plain_repr two_tabs) as H.
  cbv zeta in H. destruct H as [_ H].
  destruct (H eq_refl)
    as (e & h & e1 & page & e2 & Hd & Hcwh & Hps & _ & Hdata & Hlen & _).
  inversion Hd. subst e. inversion Hcwh. subst h e1.
  inversion Hps. subst page e2.
  split; [ exact Hdata | exact Hlen ].
Defined.

(** * Further properties of the methods *)

Section Methods.

Context {E : Type}.
Variable eng : Engine E.
Variable repr_str : string -> string.

(** Decides [isinstance] on an exception the program built itself. *)
Ltac own_exception :=
  repeat match goal with
         | |- context [isinstance (mkExn ?c ?s) ?d] =>
             let b := eval cbv in (subclass c d) in
             change (isinstance (mkExn c s) d) with b
         end.

(** Opens a method and the monad under it. *)
Ltac open_method :=
  unfold create_new_tab, get_all_tabs, get_active_tab,
    switch_to_specific_tab, open_url_in_specific_tab,
    get_specific_tab_page_content, scroll_mouse_wheel_down,
    scroll_mouse_wheel_up, click_element_by_xpath, click_element,
    close_specific_tab, quit_browser.

Ltac reduce :=
  cbv beta iota zeta delta
    [try_except try_or bind ret raise returning call_method check_driver
     has_driver set_driver_none clear_driver engine_call window_handles
     current_window_handle switch_to_window get page_source execute_script
     find_element click close quit sleep list_item list_index
     switch_target_handle switch_if_given lookup_locator success_json
     fail_json element_truthy driver trace fst snd code status message detail
     data];
  own_exception;
  cbn [Z.eqb Pos.eqb orb andb negb as_int as_str].

(** Splits on the test or the answer that decides the path. *)
Ltac branch :=
  match goal with
  | |- context [match ?x with _ => _ end] =>
      lazymatch x with
      | context [match _ with _ => _ end] => fail
      | _ => destruct x eqn:?
      end
  end; reduce.

Ltac all_paths := open_method; reduce; repeat branch.

(** Continues a run with the known answer of a command or test. *)
Ltac given H := rewrite H; reduce.

(** Brings the commands of a finished run into one list. *)
Ltac commands :=
  repeat rewrite <- app_assoc; cbn [app];
  first [ rewrite events_of_app | rewrite events_of_same ].

(** ** Listing the tabs *)

Lemma tabs_info_length (handles : list string) (active : option string)
  (index : Z) :
  List.length (tabs_info_from index handles active) = List.length handles.
Proof.
  revert index. induction handles as [| h l IH]; intros index;
    cbn [tabs_info_from List.length]; [ reflexivity |].
  rewrite IH. reflexivity.
Qed.

(** Whether an entry of tabs_info is marked as the active tab. *)
Definition marked_active (info : pyval) : bool :=
  match field "status" info with
  | Some (PyStr s) => String.eqb s "[Currently Active]"
  | _ => false
  end.

(** What [get_all_tabs] takes for the active handle: the one the driver
    reported, unless it is empty. *)
Definition is_active (active : option string) (handle : string) : bool :=
  match active with
  | Some a => negb (String.eqb a EmptyString) && String.eqb handle a
  | None => false
  end.

Lemma tabs_info_nth (handles : list string) (active : option string)
  (index : Z) (n : nat) (h : string) :
  nth_error handles n = Some h ->
  exists info,
    nth_error (tabs_info_from index handles active) n = Some info
    /\ field "index" info = Some (PyInt (index + Z.of_nat n))
    /\ field "handle" info = Some (PyStr h)
    /\ field "handle_abbr" info = Some (PyStr (abbr h))
    /\ marked_active info = is_active active h.
Proof.
  revert index n. induction handles as [| x l IH]; intros index n Hn.
  - destruct n; discriminate Hn.
  - destruct n as [| n].
    + cbn [nth_error] in Hn. inversion Hn. subst x.
      eexists. split; [ reflexivity |].
      cbn [field dict_get String.eqb Ascii.eqb Bool.eqb].
      rewrite Z.add_0_r. repeat split.
      unfold marked_active, is_active.
      cbn [field dict_get String.eqb Ascii.eqb Bool.eqb].
      destruct active as [a |]; [| reflexivity ].
      destruct (negb (String.eqb a EmptyString) && String.eqb h a);
        reflexivity.
    + cbn [nth_error] in Hn. cbn [tabs_info_from nth_error].
      destruct (IH (index + 1) n Hn) as (info & Hi & Hidx & Hrest).
      exists info. split; [ exact Hi |]. split; [| exact Hrest ].
      rewrite Hidx. f_equal. f_equal. lia.
Qed.

(** X1.  Once the handles are fetched, [get_all_tabs] succeeds whatever
    the driver answers about the current handle, also with no tab at all:
    the data field is the list of handles as fetched, total_tabs is their
    number, and tabs_info has one entry per handle, at its position, with
    that position as index.  When the current handle cannot be read, no
    entry is marked active. *)
Theorem get_all_tabs_lists_every_handle (w : world E) (e e1 : E)
  (handles : list string) :
  driver w = Some e ->
  eng_window_handles eng e = (inr handles, e1) ->
  let r := get_all_tabs eng w in
  code (fst r) = 200
  /\ data (fst r) = PyList (map PyStr handles)
  /\ field "total_tabs" (detail (fst r)) = Some (PyInt (len handles))
  /\ exists infos,
       field "tabs_info" (detail (fst r)) = Some (PyList infos)
       /\ List.length infos = List.length handles
       /\ (forall n h,
              nth_error handles n = Some h ->
              exists info,
                nth_error infos n = Some info
                /\ field "index" info = Some (PyInt (Z.of_nat n))
                /\ field "handle" info = Some (PyStr h))
       /\ (forall x e2,
              eng_current_window_handle eng e1 = (inl x, e2) ->
              forall info, In info infos -> marked_active info = false).
Proof.
  intros Hd Hwh. cbv zeta. destruct w as [d t]. cbn [driver] in Hd. subst d.
  open_method. reduce. given Hwh.
  destruct (eng_current_window_handle eng e1) as [[x | a] e2] eqn:Hcwh;
    reduce; cbn [field dict_get String.eqb Ascii.eqb Bool.eqb];
    (split; [ reflexivity |]); (split; [ reflexivity |]);
    (split; [ reflexivity |]);
    eexists; (split; [ reflexivity |]);
    (split; [ apply tabs_info_length |]); split.
  - intros n h Hn.
    destruct (tabs_info_nth handles None 0 n h Hn) as (info & H1 & H2 & H3 & _).
    exists info. repeat split; assumption.
  - intros x0 e0 _ info Hin.
    destruct (In_nth_error _ _ Hin) as [n Hn].
    assert (Hlt : (n < List.length handles)%nat).
    { rewrite <- (tabs_info_length handles None 0).
      apply nth_error_Some. rewrite Hn. discriminate. }
    destruct (nth_error handles n) as [h |] eqn:Hh;
      [| apply nth_error_None in Hh; lia ].
    destruct (tabs_info_nth handles None 0 n h Hh) as (info' & H1 & _ & _ & _ & Hm).
    rewrite Hn in H1. inversion H1. subst info'. exact Hm.
  - intros n h Hn.
    destruct (tabs_info_nth handles (Some a) 0 n h Hn)
      as (info & H1 & H2 & H3 & _).
    exists info. repeat split; assumption.
  - intros x0 e0 Hx. discriminate Hx.
Qed.

Lemma entry_marked (index : Z) (h : string) (b : bool) :
  marked_active
    (PyDict
       [("index", PyInt index); ("handle", PyStr h);
        ("handle_abbr", PyStr (abbr h));
        ("status", PyStr (if b then "[Currently Active]" else "[Inactive]"))])
  = b.
Proof. destruct b; reflexivity. Qed.

Lemma tabs_info_marked (handles : list string) (active : option string)
  (index : Z) :
  List.length (filter marked_active (tabs_info_from index handles active))
  = List.length (filter (is_active active) handles).
Proof.
  revert index. induction handles as [| h l IH]; intros index;
    [ reflexivity |].
  destruct active as [a |].
  - cbn [tabs_info_from filter is_active]. rewrite entry_marked.
    destruct (negb (String.eqb a EmptyString) && String.eqb h a);
      cbn [List.length]; rewrite IH; reflexivity.
  - cbn [tabs_info_from filter is_active].
    rewrite (entry_marked index h false). apply IH.
Qed.

Lemma one_match_without_duplicates (a : string) (l : list string) :
  NoDup l -> In a l ->
  List.length (filter (fun h => String.eqb h a) l) = 1%nat.
Proof.
  induction 1 as [| x l Hnot Hnd IH]; intros Hin; [ contradiction Hin |].
  cbn [filter]. destruct (String.eqb x a) eqn:Heq.
  - apply String.eqb_eq in Heq. subst x. cbn [List.length]. f_equal.
    assert (Hnone : forall l', ~ In a l' ->
              filter (fun h => String.eqb h a) l' = []).
    { induction l' as [| y l' IH']; intros Hn; [ reflexivity |].
      cbn [filter]. destruct (String.eqb y a) eqn:Hy.
      - apply String.eqb_eq in Hy. subst y. contradiction Hn. left.
        reflexivity.
      - apply IH'. intros Hc. apply Hn. right. exact Hc. }
    rewrite (Hnone l Hnot). reflexivity.
  - destruct Hin as [Hin | Hin].
    + subst x. rewrite String.eqb_refl in Heq. discriminate Heq.
    + exact (IH Hin).
Qed.

(** X2.  When the driver reports a current handle, [get_all_tabs] marks
    an entry active exactly when its handle is the reported one and that
    one is not the empty string; with handles that are all different and
    the reported one among them, exactly one entry is marked. *)
Theorem get_all_tabs_marks_the_current_tab (w : world E) (e e1 e2 : E)
  (handles : list string) (a : string) :
  driver w = Some e ->
  eng_window_handles eng e = (inr handles, e1) ->
  eng_current_window_handle eng e1 = (inr a, e2) ->
  exists infos,
    field "tabs_info" (detail (fst (get_all_tabs eng w)))
    = Some (PyList infos)
    /\ (forall n h info,
           nth_error handles n = Some h ->
           nth_error infos n = Some info ->
           (marked_active info = true <-> h = a /\ a <> EmptyString))
    /\ (a <> EmptyString -> NoDup handles -> In a handles ->
        List.length (filter marked_active infos) = 1%nat).
Proof.
  intros Hd Hwh Hcwh. destruct w as [d t]. cbn [driver] in Hd. subst d.
  open_method. reduce. given Hwh. given Hcwh.
  cbn [field dict_get String.eqb Ascii.eqb Bool.eqb].
  eexists. split; [ reflexivity |]. split.
  - intros n h info Hn Hi.
    destruct (tabs_info_nth handles (Some a) 0 n h Hn)
      as (info' & H1 & _ & _ & _ & Hm).
    rewrite Hi in H1. inversion H1. subst info'. rewrite Hm.
    unfold is_active. rewrite andb_true_iff, negb_true_iff, String.eqb_eq.
    split.
    + intros [Hne Heq]. split; [ exact Heq |].
      apply String.eqb_neq. exact Hne.
    + intros [Heq Hne]. split; [| exact Heq ].
      apply String.eqb_neq. exact Hne.
  - intros Hne Hnd Hin. rewrite tabs_info_marked.
    rewrite <- (one_match_without_duplicates a handles Hnd Hin).
    unfold is_active. apply String.eqb_neq in Hne. rewrite Hne.
    reflexivity.
Qed.

(** ** The active tab *)

Lemma index_of_first (x : string) (l : list string) (n : nat) :
  index_of x l = Some n ->
  nth_error l n = Some x
  /\ forall m, (m < n)%nat -> nth_error l m <> Some x.
Proof.
  revert n. induction l as [| y l IH]; intros n H; [ discriminate H |].
  cbn [index_of] in H. destruct (String.eqb x y) eqn:Heq.
  - inversion H. subst n. apply String.eqb_eq in Heq. subst y.
    split; [ reflexivity | intros m Hm; lia ].
  - destruct (index_of x l) as [k |]; [| discriminate H ].
    inversion H. subst n. destruct (IH k eq_refl) as [Hk Hmin].
    split; [ exact Hk |].
    intros [| m] Hm; cbn [nth_error].
    + intros Hc. inversion Hc. subst y. rewrite String.eqb_refl in Heq.
      discriminate Heq.
    + apply Hmin. lia.
Qed.

Lemma index_of_missing (x : string) (l : list string) :
  index_of x l = None <-> ~ In x l.
Proof.
  induction l as [| y l IH]; cbn [index_of In]; [ tauto |].
  destruct (String.eqb x y) eqn:Heq.
  - apply String.eqb_eq in Heq. subst y. split; [ discriminate | tauto ].
  - apply String.eqb_neq in Heq.
    destruct (index_of x l) as [k |] eqn:Hk.
    + split; [ discriminate |].
      intros Hn. exfalso. apply Hn. right.
      destruct (index_of_first x l k Hk) as [Hnth _].
      exact (nth_error_In _ _ Hnth).
    + split; [| reflexivity ].
      intros _ [Hc | Hc]; [ congruence | exact (proj1 IH eq_refl Hc) ].
Qed.

(** X3.  With the current handle and the handles read, [get_active_tab]
    succeeds exactly when the current handle is among the handles.  It
    then reports that handle as data, the number of handles, and as
    active_tab_index the first position at which the handle occurs;
    otherwise it fails with code 500, a null detail and the message of
    the failed list search. *)
Theorem get_active_tab_reports_first_position (w : world E) (e e1 e2 : E)
  (current_window : string) (all_handles : list string) :
  driver w = Some e ->
  eng_current_window_handle eng e = (inr current_window, e1) ->
  eng_window_handles eng e1 = (inr all_handles, e2) ->
  let r := get_active_tab eng repr_str w in
  (In current_window all_handles ->
   exists n,
     code (fst r) = 200
     /\ data (fst r) = PyStr current_window
     /\ field "total_tabs" (detail (fst r)) = Some (PyInt (len all_handles))
     /\ field "active_tab_index" (detail (fst r))
        = Some (PyInt (Z.of_nat n))
     /\ nth_error all_handles n = Some current_window
     /\ forall m, (m < n)%nat ->
                  nth_error all_handles m <> Some current_window)
  /\ (~ In current_window all_handles ->
      fst r
      = fail_json 500
          ("Failed to get active tab: " ++ repr_str current_window
           ++ " is not in list")
          PyNone)
  /\ driver (snd r) = Some e2.
Proof.
  intros Hd Hcwh Hwh. cbv zeta. destruct w as [d t].
  cbn [driver] in Hd. subst d.
  open_method. reduce. given Hcwh. given Hwh.
  destruct (index_of current_window all_handles) as [n |] eqn:Hidx; reduce.
  - split; [| split; [| reflexivity ] ].
    + intros _. exists n.
      destruct (index_of_first _ _ _ Hidx) as [Hnth Hmin].
      repeat split; try reflexivity; assumption.
    + intros Hn. apply index_of_missing in Hn. congruence.
  - split; [| split; [| reflexivity ] ].
    + intros Hin. apply index_of_missing in Hidx. contradiction.
    + intros _. reflexivity.
Qed.

(** ** Switching by handle *)

(** X4.  With the handles fetched, a string identifier is resolved to
    itself exactly when it is one of the handles, and the window of that
    name is then switched to.  A string that is not among the handles
    makes the method fail with code 500 before any switch is sent. *)
Theorem switch_by_handle (s : string) (w : world E) (e e1 : E)
  (all_handles : list string) :
  driver w = Some e ->
  eng_window_handles eng e = (inr all_handles, e1) ->
  let r := switch_to_specific_tab eng repr_str (PyStr s) w in
  (In s all_handles ->
   exists x,
     events_of w (snd r)
     = [mkEvent CWindowHandles None; mkEvent (CSwitchToWindow s) x]
     /\ (x = None ->
         code (fst r) = 200
         /\ field "target_handle" (detail (fst r)) = Some (PyStr s)))
  /\ (~ In s all_handles ->
      fst r
      = fail_json 500
          ("Failed to switch to specific tab: Tab handle " ++ s
           ++ " is invalid, not in the current tab list")
          (PyDict [("input_target", PyStr s)])
      /\ events_of w (snd r) = [mkEvent CWindowHandles None]).
Proof.
  intros Hd Hwh. cbv zeta. destruct w as [d t]. cbn [driver] in Hd. subst d.
  open_method. reduce. given Hwh.
  destruct (str_in s all_handles) eqn:Hin; reduce.
  - apply str_in_In in Hin. split; [| intros Hn; contradiction ].
    intros _.
    destruct (eng_switch_to_window eng s e1) as [[x | []] e2]; reduce;
      commands; eexists; (split; [ reflexivity |]); intros Hx;
      [ discriminate Hx | split; reflexivity ].
  - assert (Hn : ~ In s all_handles).
    { intros Hc. apply str_in_In in Hc. congruence. }
    split; [ intros Hc; contradiction |].
    intros _. commands. split; reflexivity.
Qed.

(** ** Switching, then asking for the active tab *)

Section WorkingBrowser.

Variable tabs : E -> list string.
Variable current : E -> option string.
Hypothesis working : tab_model eng tabs current.

(** The run of [switch_to_specific_tab] on the tab at index [i]. *)
Ltac switch_by_index i e e1 Hwh Ht1 Hdes :=
  let Hpos := fresh "Hpos" in
  let Hnth := fresh "Hnth" in
  destruct Hdes as [Hpos Hnth];
  let Hin := fresh "Hin" in
  pose proof (nth_error_In _ _ Hnth) as Hin;
  let Hrange := fresh "Hrange" in
  assert (Hrange : Z.leb 0 i && Z.ltb i (len (tabs e)) = true)
    by (apply in_range_test; split; [ exact Hpos |];
        assert (Z.to_nat i < List.length (tabs e))%nat
          by (apply nth_error_Some; rewrite Hnth; discriminate);
        unfold len; lia);
  let Hneg := fresh "Hneg" in
  assert (Hneg : Z.ltb i 0 = false) by (apply Z.ltb_ge; exact Hpos);
  let e2 := fresh "e" in
  let Hsw := fresh "Hsw" in
  let Ht2 := fresh "Ht" in
  let Hc2 := fresh "Hc" in
  destruct (tm_switch _ _ _ working e1 _ ltac:(rewrite Ht1; exact Hin))
    as (e2 & Hsw & Ht2 & Hc2);
  exists e2;
  open_method; reduce; given Hwh; given Hrange; repeat given Hneg;
  given Hnth; given Hsw;
  repeat split; try reflexivity; try assumption;
  rewrite Ht2; exact Ht1.

Lemma switch_run (target : pyval) (t : list event) (e : E) (h : string) :
  target <> PyNone ->
  designates tabs current target e h ->
  exists e',
    code (fst (switch_to_specific_tab eng repr_str target
                 (mkWorld (Some e) t))) = 200
    /\ field "target_handle"
         (detail (fst (switch_to_specific_tab eng repr_str target
                         (mkWorld (Some e) t))))
       = Some (PyStr h)
    /\ driver (snd (switch_to_specific_tab eng repr_str target
                      (mkWorld (Some e) t))) = Some e'
    /\ current e' = Some h
    /\ tabs e' = tabs e.
Proof.
  intros Hsome Hdes.
  assert (Hin : In h (tabs e)).
  { destruct target as [| [|] | i | s | l | d];
      cbn [designates as_int as_str] in Hdes;
      try (contradiction Hsome; reflexivity);
      try (destruct Hdes as [_ Hn]; exact (nth_error_In _ _ Hn));
      destruct Hdes as [Hs Hn]; try discriminate Hs; exact Hn. }
  assert (Hne : tabs e <> []).
  { intros Hnil. rewrite Hnil in Hin. exact Hin. }
  destruct (tm_window_handles _ _ _ working e Hne) as (e1 & Hwh & Ht1 & _).
  destruct target as [| b | i | s | l | d];
    cbn [designates as_int as_str] in Hdes.
  - contradiction Hsome. reflexivity.
  - destruct b.
    + switch_by_index 1 e e1 Hwh Ht1 Hdes.
    + switch_by_index 0 e e1 Hwh Ht1 Hdes.
  - switch_by_index i e e1 Hwh Ht1 Hdes.
  - destruct Hdes as [Hs _]. inversion Hs. subst s.
    assert (Hstr : str_in h (tabs e) = true) by (apply str_in_In; exact Hin).
    destruct (tm_switch _ _ _ working e1 h ltac:(rewrite Ht1; exact Hin))
      as (e2 & Hsw & Ht2 & Hc2).
    exists e2. open_method. reduce. given Hwh. given Hstr. given Hsw.
    repeat split; try reflexivity; try assumption.
    rewrite Ht2. exact Ht1.
  - destruct Hdes as [Hs _]. discriminate Hs.
  - destruct Hdes as [Hs _]. discriminate Hs.
Qed.

(** X5.  With a working browser, switching to an open tab, named by its
    index or its handle, succeeds and reports the handle of that tab, and
    [get_active_tab] called next succeeds and reports the same handle. *)
Theorem switch_then_get_active_tab (target : pyval) (w : world E) (e : E)
  (h : string) :
  driver w = Some e ->
  target <> PyNone ->
  designates tabs current target e h ->
  let r := switch_to_specific_tab eng repr_str target w in
  code (fst r) = 200
  /\ field "target_handle" (detail (fst r)) = Some (PyStr h)
  /\ code (fst (get_active_tab eng repr_str (snd r))) = 200
  /\ data (fst (get_active_tab eng repr_str (snd r))) = PyStr h.
Proof.
  intros Hd Hsome Hdes. cbv zeta. destruct w as [d t].
  cbn [driver] in Hd. subst d.
  destruct (switch_run target t e h Hsome Hdes)
    as (e' & Hcode & Hfield & Hdrv & Hcur & Htabs).
  split; [ exact Hcode |]. split; [ exact Hfield |].
  destruct (snd (switch_to_specific_tab eng repr_str target
                   (mkWorld (Some e) t))) as [d' t'].
  cbn [driver] in Hdrv. subst d'.
  apply (get_active_tab_run eng repr_str tabs current e' t' h working Hcur).
  rewrite Htabs.
  destruct target as [| [|] | i | s | l | d];
    cbn [designates as_int as_str] in Hdes;
    try (contradiction Hsome; reflexivity);
    try (destruct Hdes as [_ Hn]; exact (nth_error_In _ _ Hn));
    destruct Hdes as [Hs Hn]; try discriminate Hs; exact Hn.
Qed.

End WorkingBrowser.

(** ** Opening a page *)

(** X6.  [open_url_in_specific_tab] refuses an address that is not a
    string, or is the empty string, with code 500; it sends no command
    and leaves the instance as it was. *)
Theorem open_url_rejects_bad_address (url target : pyval) (w : world E)
  (e : E) :
  driver w = Some e ->
  as_str url = None \/ url = PyStr EmptyString ->
  open_url_in_specific_tab eng repr_str url target w
  = (fail_json 500
       "Failed to open web page in specific tab: Invalid web page address"
       (PyDict [("target_tab", target); ("input_url", url)]),
     w).
Proof.
  intros Hd Hbad. destruct w as [d t]. cbn [driver] in Hd. subst d.
  unfold open_url_in_specific_tab. reduce.
  destruct Hbad as [Hnone | Hempty].
  - given Hnone. reflexivity.
  - subst url. reduce. reflexivity.
Qed.

Lemma timeout_is_webdriver (x : exn) :
  isinstance x TimeoutException || isinstance x WebDriverException
  = isinstance x WebDriverException.
Proof.
  unfold isinstance. destruct (exn_cls x); reflexivity.
Qed.

(** X7.  With a non-empty string as address, [open_url_in_specific_tab]
    is the switch to the target followed by the navigation.  When the
    switch fails, nothing more is sent and the failure carries the
    message of the switch behind its own prefix.  When it succeeds, the
    address is sent as given; the call succeeds if the driver accepts
    it, and otherwise fails with code 500 and the loading message for a
    [WebDriverException] (timeouts included), the general one for any
    other error. *)
Theorem open_url_is_switch_then_get (u : string) (target : pyval)
  (w : world E) :
  u <> EmptyString ->
  let sw := switch_to_specific_tab eng repr_str target w in
  let r := open_url_in_specific_tab eng repr_str (PyStr u) target w in
  let fail_detail :=
    PyDict [("target_tab", target); ("input_url", PyStr u)] in
  (driver w <> None -> code (fst sw) <> 200 ->
   r = (fail_json 500
          ("Failed to open web page in specific tab: " ++ message (fst sw))
          fail_detail,
        snd sw))
  /\ (forall e1, code (fst sw) = 200 -> driver (snd sw) = Some e1 ->
      events_of (snd sw) (snd r)
      = [mkEvent (CGet u)
           (match fst (eng_get eng u e1) with
            | inl x => Some x
            | inr _ => None
            end)]
      /\ driver (snd r) = Some (snd (eng_get eng u e1))
      /\ match fst (eng_get eng u e1) with
         | inr _ =>
             fst r
             = success_json
                 ("Successfully opened web page in target tab: " ++ u)
                 (PyDict [("target_tab", target); ("opened_url", PyStr u)])
                 PyNone
         | inl x =>
             fst r
             = fail_json 500
                 ((if isinstance x WebDriverException
                   then "Web page loading timed out or failed to open: "
                   else "Failed to open web page in specific tab: ")
                  ++ exn_str x)
                 fail_detail
         end).
Proof.
  intros Hu. cbv zeta.
  assert (Htruthy : negb (String.eqb u EmptyString) = true).
  { apply negb_true_iff. apply String.eqb_neq. exact Hu. }
  destruct w as [d t]. destruct d as [e |].
  - unfold open_url_in_specific_tab. reduce. cbn [truthy]. given Htruthy.
    destruct (switch_to_specific_tab eng repr_str target
                (mkWorld (Some e) t)) as [env w1] eqn:Hsw.
    reduce. split.
    + intros _ Hcode. apply Z.eqb_neq in Hcode. given Hcode. reflexivity.
    + intros e1 Hcode Hd1. destruct w1 as [d1 t1]. cbn [driver] in Hd1.
      subst d1. apply Z.eqb_eq in Hcode. given Hcode.
      destruct (eng_get eng u e1) as [[x | []] e2]; reduce.
      * rewrite timeout_is_webdriver.
        destruct (isinstance x WebDriverException); reduce; commands;
          repeat split; reflexivity.
      * commands. repeat split; reflexivity.
  - split.
    + intros Hd. contradiction Hd. reflexivity.
    + intros e1 Hcode. open_method. reduce. discriminate Hcode.
Qed.

(** ** Scrolling *)

(** What was recorded for a command with a given answer. *)
Definition raised {A} (r : outcome A) : option exn :=
  match r with
  | inl x => Some x
  | inr _ => None
  end.

(** X8.  Without a target tab, each scroll method sends one command: the
    script that scrolls by the distance, written into the script as
    given, with a minus sign in front of it for scrolling up.  No check
    is made on the distance.  The call succeeds exactly when the driver
    runs the script without an error. *)
Theorem scroll_sends_one_script (scroll_distance : pyval) (w : world E)
  (e : E) :
  driver w = Some e ->
  let text := py_str repr_str scroll_distance in
  let down_script := "window.scrollBy(0, " ++ text ++ ");" in
  let up_script := "window.scrollBy(0, -" ++ text ++ ");" in
  let down := scroll_mouse_wheel_down eng repr_str scroll_distance PyNone w in
  let up := scroll_mouse_wheel_up eng repr_str scroll_distance PyNone w in
  events_of w (snd down)
  = [mkEvent (CExecuteScript down_script [])
       (raised (fst (eng_execute_script eng down_script [] e)))]
  /\ (code (fst down) = 200
      <-> raised (fst (eng_execute_script eng down_script [] e)) = None)
  /\ events_of w (snd up)
     = [mkEvent (CExecuteScript up_script [])
          (raised (fst (eng_execute_script eng up_script [] e)))]
  /\ (code (fst up) = 200
      <-> raised (fst (eng_execute_script eng up_script [] e)) = None).
Proof.
  intros Hd. cbv zeta. destruct w as [d t]. cbn [driver] in Hd. subst d.
  open_method. reduce.
  destruct (eng_execute_script eng
              ("window.scrollBy(0, " ++ py_str repr_str scroll_distance
               ++ ");") [] e) as [[x | []] e1];
    destruct (eng_execute_script eng
                ("window.scrollBy(0, -" ++ py_str repr_str scroll_distance
                 ++ ");") [] e) as [[x' | []] e1'];
    reduce;
    repeat match goal with
           | |- context [if ?c then _ else _] => destruct c
           end;
    reduce; cbn [raised]; repeat rewrite events_of_app;
    repeat split; try reflexivity; intros H; discriminate H.
Qed.

(** X9.  With a target tab, each scroll method first switches to it.
    When that switch fails, no script is sent: the call fails with code
    500, reports the message of the switch behind its own prefix, and
    leaves the instance as the switch left it. *)
Theorem scroll_stops_at_failed_switch (scroll_distance target_tab : pyval)
  (w : world E) :
  driver w <> None ->
  target_tab <> PyNone ->
  let sw := switch_to_specific_tab eng repr_str target_tab w in
  let fail_detail :=
    PyDict [("scroll_distance", scroll_distance);
            ("target_tab", target_tab)] in
  code (fst sw) <> 200 ->
  scroll_mouse_wheel_down eng repr_str scroll_distance target_tab w
  = (fail_json 500
       ("Failed to scroll mouse wheel down: " ++ message (fst sw))
       fail_detail,
     snd sw)
  /\ scroll_mouse_wheel_up eng repr_str scroll_distance target_tab w
     = (fail_json 500
          ("Failed to scroll mouse wheel up: " ++ message (fst sw))
          fail_detail,
        snd sw).
Proof.
  intros Hd Htarget. cbv zeta. intros Hcode. apply Z.eqb_neq in Hcode.
  destruct w as [[e |] t]; [| contradiction Hd; reflexivity ].
  unfold scroll_mouse_wheel_down, scroll_mouse_wheel_up. reduce.
  destruct target_tab; try (contradiction Htarget; reflexivity); reduce;
    match goal with
    | |- context [switch_to_specific_tab eng repr_str ?tg ?w0] =>
        destruct (switch_to_specific_tab eng repr_str tg w0)
          as [[c0 s0 m0 dt0 da0] w1]
    end;
    cbn [fst code] in Hcode; reduce; rewrite Hcode; reduce;
    split; reflexivity.
Qed.

(** ** Clicking *)

(** Whether [locator_type] is a key of [supported_locators]. *)
Definition supported (locator_type : pyval) : bool :=
  match locator_type with
  | PyStr s =>
      match locator_get s supported_locators with
      | Some _ => true
      | None => false
      end
  | _ => false
  end.

Lemma supported_names (s : string) :
  supported (PyStr s) = true
  <-> In s ["id"; "xpath"; "name"; "class_name"; "css_selector";
            "tag_name"; "link_text"; "partial_link_text"].
Proof.
  unfold supported, supported_locators. cbn [locator_get In].
  repeat match goal with
         | |- context [String.eqb s ?k] =>
             destruct (String.eqb s k) eqn:?;
             [ match goal with
               | H : String.eqb s k = true |- _ =>
                   apply String.eqb_eq in H; subst s
               end; split; [ intros _; tauto | reflexivity ]
             | match goal with
               | H : String.eqb s k = false |- _ =>
                   apply String.eqb_neq in H
               end ]
         end.
  split; [ discriminate |].
  intros Hin.
  repeat match type of Hin with
         | _ \/ _ => destruct Hin as [Hin | Hin]
         end;
    congruence || contradiction.
Qed.

(** X10.  [click_element] checks its arguments before it sends anything:
    with a locator type that is not one of the eight supported names, or
    with a locator that is not a non-empty string, the call fails with
    code 500 and the instance is left as it was, no command sent.  The
    supported names are exactly id, xpath, name, class_name,
    css_selector, tag_name, link_text and partial_link_text. *)
Theorem click_element_checks_arguments_first
  (locator locator_type target_tab : pyval) (w : world E) (e : E) :
  driver w = Some e ->
  let r := click_element eng repr_str locator locator_type target_tab w in
  (supported locator_type = false
   \/ as_str locator = None \/ locator = PyStr EmptyString ->
   code (fst r) = 500 /\ status (fst r) = "failed" /\ snd r = w)
  /\ (forall s,
         supported (PyStr s) = true
         <-> In s ["id"; "xpath"; "name"; "class_name"; "css_selector";
                   "tag_name"; "link_text"; "partial_link_text"]).
Proof.
  intros Hd. cbv zeta. split; [| exact supported_names ].
  destruct w as [d t]. cbn [driver] in Hd. subst d.
  intros Hbad. open_method. reduce.
  destruct locator_type as [| b | z | s | l | dd]; reduce;
    try (repeat split; reflexivity).
  unfold supported in Hbad.
  destruct (locator_get s supported_locators) as [by_ |]; reduce;
    [| repeat split; reflexivity ].
  destruct Hbad as [Hbad | [Hbad | Hbad]].
  - discriminate Hbad.
  - given Hbad. repeat split; reflexivity.
  - subst locator. reduce. repeat split; reflexivity.
Qed.

(** Replaces the trace a nested switch left by the commands it sent. *)
Ltac after_switch :=
  repeat match goal with
         | H : switch_to_specific_tab _ _ _ _ = (_, ?w') |- _ =>
             let Ht := fresh "Htrace" in
             destruct (switch_trace _ _ _ _ _ _ H) as (? & Ht & ? & _);
             clear H; try (is_var w'; destruct w');
             cbn [trace] in Ht; subst
         end.

(** Settles one path of a click method for the order of its commands. *)
Ltac in_order :=
  after_switch; commands;
  intros Hcode; try discriminate Hcode;
  (match goal with
   | H : Forall switch_command ?x |- _ => exists x
   | _ => exists (@nil event)
   end);
  do 3 eexists;
  repeat split; try reflexivity; try eassumption;
  try (intros Hnone; discriminate Hnone).

(** X11.  When [click_element_by_xpath] succeeds, the commands it sent
    are those of the switch to the target tab, if one was given, then
    [find_element] by XPath with the expression passed in, then the click
    on the element found. *)
Theorem click_by_xpath_commands (xpath target_tab : pyval) (w : world E) :
  code (fst (click_element_by_xpath eng repr_str xpath target_tab w)) = 200 ->
  exists pre value el e1,
    as_str xpath = Some value
    /\ events_of w
         (snd (click_element_by_xpath eng repr_str xpath target_tab w))
       = (pre ++ [mkEvent (CFindElement By_XPATH value) None;
                  mkEvent (CClick el) None])%list
    /\ Forall switch_command pre
    /\ (target_tab = PyNone -> pre = [])
    /\ fst (eng_find_element eng By_XPATH value e1) = inr el.
Proof.
  destruct w as [d t]. all_paths; in_order.
  all: try apply Forall_nil.
  all: match goal with
       | H : eng_find_element eng _ _ _ = (inr _, _) |- _ =>
           exact (f_equal fst H)
       end.
Qed.

(** X12.  When [click_element] succeeds, the commands it sent are those
    of the switch to the target tab, if one was given, then
    [find_element] with the strategy the locator type names and the
    locator passed in, then the script that scrolls the element found
    into view, then the click on that element. *)
Theorem click_element_commands (locator locator_type target_tab : pyval)
  (w : world E) :
  code (fst (click_element eng repr_str locator locator_type target_tab w))
  = 200 ->
  exists pre value el e1 name by_,
    as_str locator = Some value
    /\ events_of w
         (snd (click_element eng repr_str locator locator_type target_tab w))
       = (pre ++ [mkEvent (CFindElement by_ value) None;
                  mkEvent
                    (CExecuteScript
                       "arguments[0].scrollIntoView({behavior: 'smooth', block: 'center'});"
                       [el]) None;
                  mkEvent (CClick el) None])%list
    /\ Forall switch_command pre
    /\ (target_tab = PyNone -> pre = [])
    /\ fst (eng_find_element eng by_ value e1) = inr el
    /\ locator_type = PyStr name
    /\ locator_get name supported_locators = Some by_.
Proof.
  destruct w as [d t]. all_paths.
  all: after_switch; commands; intros Hcode; try discriminate Hcode.
  all: (match goal with
        | H : Forall switch_command ?x |- _ => exists x
        | _ => exists (@nil event)
        end);
    do 5 eexists;
    repeat split; try reflexivity; try eassumption;
    try (intros Hnone; discriminate Hnone).
  all: try apply Forall_nil.
  all: match goal with
       | H : eng_find_element eng _ _ _ = (inr _, _) |- _ =>
           exact (f_equal fst H)
       end.
Qed.

(** X13.  With a target tab given and valid arguments, each click method
    first switches to the tab.  When that switch fails, nothing is
    searched or clicked: the call fails with code 500, not 404, reports
    the message of the switch, and leaves the instance as the switch
    left it. *)
Theorem click_stops_at_failed_switch (value name : string) (by_ : By)
  (target_tab : pyval) (w : world E) :
  driver w <> None ->
  value <> EmptyString ->
  locator_get name supported_locators = Some by_ ->
  target_tab <> PyNone ->
  let sw := switch_to_specific_tab eng repr_str target_tab w in
  code (fst sw) <> 200 ->
  click_element_by_xpath eng repr_str (PyStr value) target_tab w
  = (fail_json 500
       ("Failed to click element by XPath: Failed to switch to target tab: "
        ++ message (fst sw))
       (PyDict [("xpath_expression", PyStr value);
                ("target_tab", target_tab);
                ("error_type", PyStr "GeneralException")]),
     snd sw)
  /\ click_element eng repr_str (PyStr value) (PyStr name) target_tab w
     = (fail_json 500
          ("Failed to click element by " ++ name
           ++ ": Failed to switch to target tab: " ++ message (fst sw))
          (PyDict [("locator_type", PyStr name);
                   ("locator_expression", PyStr value);
                   ("target_tab", target_tab);
                   ("error_type", PyStr "GeneralException")]),
        snd sw).
Proof.
  intros Hd Hvalue Hname Htarget. cbv zeta. intros Hcode.
  apply Z.eqb_neq in Hcode.
  assert (Htruthy : negb (String.eqb value EmptyString) = true).
  { apply negb_true_iff. apply String.eqb_neq. exact Hvalue. }
  destruct w as [[e |] t]; [| contradiction Hd; reflexivity ].
  unfold click_element_by_xpath, click_element. reduce.
  cbn [truthy]. rewrite Htruthy, Hname. reduce.
  destruct target_tab; try (contradiction Htarget; reflexivity); reduce;
    match goal with
    | |- context [switch_to_specific_tab eng repr_str ?tg ?w0] =>
        destruct (switch_to_specific_tab eng repr_str tg w0)
          as [[c0 s0 m0 dt0 da0] w1]
    end;
    cbn [fst code] in Hcode; reduce; rewrite Hcode; reduce;
    cbn [py_str]; split; reflexivity.
Qed.

(** ** Closing a tab *)

Definition is_close (ev : event) : bool :=
  match ev_call ev with
  | CClose => true
  | _ => false
  end.

(** The command recorded right before the first close command, when a
    close was sent ([prev] is the command before the list). *)
Fixpoint before_close (prev : option event) (evs : list event)
  : option (option event) :=
  match evs with
  | [] => None
  | ev :: rest =>
      if is_close ev then Some prev else before_close (Some ev) rest
  end.

(** The handle [close_specific_tab] picks for an identifier, given the
    handles it fetched and the state the driver is in after that. *)
Definition picked (target : pyval) (all_handles : list string) (e1 : E)
  (h : string) : Prop :=
  match target with
  | PyNone => fst (eng_current_window_handle eng e1) = inr h
  | _ =>
      match as_int target with
      | Some i =>
          0 <= i < len all_handles
          /\ nth_error all_handles (Z.to_nat i) = Some h
      | None => target = PyStr h /\ In h all_handles
      end
  end.

Lemma as_str_is (v : pyval) (s : string) : as_str v = Some s -> v = PyStr s.
Proof. destruct v; intros H; inversion H. reflexivity. Qed.

(** X14.  [close_specific_tab] sends at most one close command, and only
    right after a switch that the driver carried out, to the handle it
    picked: the current handle as reported for an absent target, the
    handle at the index for an integer in range, the handle itself for a
    string among the handles fetched.  In every other case no tab is
    closed. *)
Theorem close_only_after_switch_to_target (target : pyval) (w : world E)
  (e e1 : E) (all_handles : list string) :
  driver w = Some e ->
  eng_window_handles eng e = (inr all_handles, e1) ->
  let evs := events_of w (snd (close_specific_tab eng repr_str target w)) in
  (List.length (filter is_close evs) <= 1)%nat
  /\ (forall prev,
         before_close None evs = Some prev ->
         exists h,
           prev = Some (mkEvent (CSwitchToWindow h) None)
           /\ picked target all_handles e1 h)
  /\ (before_close None evs = None -> filter is_close evs = []).
Proof.
  intros Hd Hwh. cbv zeta. destruct w as [d t]. cbn [driver] in Hd. subst d.
  open_method. reduce. given Hwh. repeat branch.
  all: commands.
  all: cbn [filter is_close ev_call before_close List.length].
  all: split; [ lia |]; split;
    [ intros prev Hprev; try discriminate Hprev
    | intros Hnone; try discriminate Hnone; try reflexivity ].
  all: inversion Hprev; subst prev; eexists; split; [ reflexivity |].
  all: cbn [picked as_int as_str].
  all: try (match goal with
            | H : eng_current_window_handle eng _ = _ |- _ =>
                rewrite H; reflexivity
            end).
  all: try (match goal with
            | H : Z.leb 0 ?i && Z.ltb ?i _ = true |- _ =>
                apply in_range_test in H
            end;
            split; [ assumption |];
            first
              [ assumption
              | exfalso;
                match goal with
                | H : Z.ltb _ 0 = true |- _ => apply Z.ltb_lt in H; lia
                end ]).
  all: match goal with
       | H : str_in _ _ = true |- _ => apply str_in_In in H
       end.
  all: try (match goal with
            | H : as_str _ = Some _ |- _ => apply as_str_is in H; subst
            end).
  all: split; [ reflexivity || assumption | assumption ].
Qed.

(** An identifier that names none of the handles: an integer out of
    range, a string that is not a handle, or a value of another type
    (an absent target apart, which stands for the current tab). *)
Definition names_no_tab (target : pyval) (all_handles : list string) : Prop :=
  match target with
  | PyNone => False
  | _ =>
      match as_int target with
      | Some i => ~ 0 <= i < len all_handles
      | None =>
          match as_str target with
          | Some s => ~ In s all_handles
          | None => True
          end
      end
  end.

(** X15.  [close_specific_tab] fails with code 500 when no tab is open or
    when the identifier names none of the handles fetched.  It has then
    sent nothing but the request for the handles: no switch, no close,
    and the driver stays in place. *)
Theorem close_rejects_without_closing (target : pyval) (w : world E)
  (e e1 : E) (all_handles : list string) :
  driver w = Some e ->
  eng_window_handles eng e = (inr all_handles, e1) ->
  all_handles = [] \/ names_no_tab target all_handles ->
  let r := close_specific_tab eng repr_str target w in
  code (fst r) = 500
  /\ status (fst r) = "failed"
  /\ events_of w (snd r) = [mkEvent CWindowHandles None]
  /\ driver (snd r) = Some e1
  /\ (all_handles = [] ->
      message (fst r)
      = "Failed to close specific tab: No available tabs to close currently").
Proof.
  intros Hd Hwh Hbad. cbv zeta. destruct w as [d t].
  cbn [driver] in Hd. subst d.
  open_method. reduce. given Hwh.
  destruct (Z.eqb (len all_handles) 0) eqn:Hzero; reduce.
  { commands. repeat split; reflexivity. }
  assert (Hne : all_handles <> []).
  { intros Hnil. subst all_handles. discriminate Hzero. }
  destruct Hbad as [Hnil | Hbad]; [ contradiction |].
  destruct target as [| b | i | s | l | dd];
    cbn [names_no_tab as_int as_str] in Hbad; reduce.
  - contradiction Hbad.
  - destruct b; cbn [as_int] in Hbad;
      match type of Hbad with
      | ~ 0 <= ?i < _ =>
          destruct (Z.leb 0 i && Z.ltb i (len all_handles)) eqn:Hr;
          [ apply in_range_test in Hr; contradiction |]
      end;
      reduce; commands; repeat split; try reflexivity;
      intros Hnil; contradiction.
  - destruct (Z.leb 0 i && Z.ltb i (len all_handles)) eqn:Hr;
      [ apply in_range_test in Hr; contradiction |].
    reduce. commands. repeat split; try reflexivity.
    intros Hnil; contradiction.
  - destruct (str_in s all_handles) eqn:Hin;
      [ apply str_in_In in Hin; contradiction |].
    reduce. commands. repeat split; try reflexivity.
    intros Hnil; contradiction.
  - reduce. commands. repeat split; try reflexivity.
    intros Hnil; contradiction.
  - reduce. commands. repeat split; try reflexivity.
    intros Hnil; contradiction.
Qed.

(** ** Quitting and creating *)

(** X16.  When the driver answers the quit command with an error,
    [quit_browser] fails with code 500 and keeps the driver, so that a
    later call sends the quit command again. *)
Theorem failed_quit_keeps_driver (w : world E) (e e' : E) (x : exn) :
  driver w = Some e ->
  eng_quit eng e = (inl x, e') ->
  quit_browser eng w
  = (fail_json 500 ("Failed to quit browser: " ++ exn_str x) PyNone,
     mkWorld (Some e') (trace w ++ [mkEvent CQuit (Some x)])%list)
  /\ events_of (snd (quit_browser eng w))
       (snd (quit_browser eng (snd (quit_browser eng w))))
     = [mkEvent CQuit (raised (fst (eng_quit eng e')))].
Proof.
  intros Hd Hq. destruct w as [d t]. cbn [driver] in Hd. subst d.
  open_method. reduce. given Hq. cbn [trace]. split; [ reflexivity |].
  destruct (eng_quit eng e') as [[x' | []] e'']; reduce; cbn [raised];
    rewrite events_of_app; reflexivity.
Qed.

(** X17.  [create_new_tab] sends one command, the script that opens a
    window, and no switch; it succeeds exactly when the driver runs the
    script without an error, and fails with code 500 otherwise. *)
Theorem create_new_tab_sends_one_script (w : world E) (e : E) :
  driver w = Some e ->
  let r := create_new_tab eng w in
  events_of w (snd r)
  = [mkEvent (CExecuteScript "window.open('');" [])
       (raised (fst (eng_execute_script eng "window.open('');" [] e)))]
  /\ (code (fst r) = 200
      <-> raised (fst (eng_execute_script eng "window.open('');" [] e))
          = None)
  /\ (code (fst r) = 200 \/ code (fst r) = 500).
Proof.
  intros Hd. cbv zeta. destruct w as [d t]. cbn [driver] in Hd. subst d.
  open_method. reduce.
  destruct (eng_execute_script eng "window.open('');" [] e)
    as [[x | []] e1];
    reduce; cbn [raised]; commands; repeat split; auto;
    intros H; discriminate H.
Qed.

(** ** Reading a given tab *)

(** What the trace keeps of the answer to a command. *)
Definition raised_by {A : Type} (r : outcome A) : option exn :=
  match r with
  | inl x => Some x
  | inr _ => None
  end.

(** The handle a path of the method settled on is the one picked. *)
Ltac is_picked :=
  cbn [picked as_int as_str];
  first
    [ match goal with
      | H : Z.leb 0 ?i && Z.ltb ?i _ = true |- _ => apply in_range_test in H
      end;
      split; [ assumption |];
      first
        [ assumption
        | exfalso;
          match goal with
          | H : Z.ltb _ 0 = true |- _ => apply Z.ltb_lt in H; lia
          end ]
    | match goal with
      | H : str_in _ _ = true |- _ => apply str_in_In in H
      end;
      split; [ reflexivity | assumption ] ].

Ltac no_unit :=
  repeat match goal with
         | u : unit |- _ => destruct u
         end.

(** Reads the answer to the request for the page source. *)
Ltac as_answered :=
  match goal with
  | H : eng_page_source eng _ = _ |- _ => rewrite H
  end.

(** X18.  With a target, [get_specific_tab_page_content] reads the page
    only after the driver carried out the switch to the target: a request
    for the page source is the third and last command sent, after the
    request for the handles and the switch to the handle picked for the
    target among them, and it is sent in the state that switch left.
    When the call succeeds, the markup returned is the answer of the
    driver to that request, with its length, the handle switched to and
    the identifier passed in.  And the call does succeed whenever the
    driver answers the three commands. *)
Theorem content_of_target_tab (target : pyval) (w : world E) :
  target <> PyNone ->
  let r := get_specific_tab_page_content eng repr_str target w in
  (forall ev,
      In ev (events_of w (snd r)) -> ev_call ev = CPageSource ->
      exists e0 hs e1 h e2,
        driver w = Some e0
        /\ eng_window_handles eng e0 = (inr hs, e1)
        /\ picked target hs e1 h
        /\ eng_switch_to_window eng h e1 = (inr tt, e2)
        /\ events_of w (snd r)
           = [mkEvent CWindowHandles None; mkEvent (CSwitchToWindow h) None;
              ev]
        /\ ev_raised ev = raised_by (fst (eng_page_source eng e2))
        /\ driver (snd r) = Some (snd (eng_page_source eng e2)))
  /\ (status (fst r) = "success" ->
      exists e0 hs e1 h e2 page e3,
        driver w = Some e0
        /\ eng_window_handles eng e0 = (inr hs, e1)
        /\ picked target hs e1 h
        /\ eng_switch_to_window eng h e1 = (inr tt, e2)
        /\ eng_page_source eng e2 = (inr page, e3)
        /\ events_of w (snd r)
           = [mkEvent CWindowHandles None; mkEvent (CSwitchToWindow h) None;
              mkEvent CPageSource None]
        /\ driver (snd r) = Some e3
        /\ code (fst r) = 200
        /\ data (fst r) = PyStr page
        /\ field "content_length" (detail (fst r))
           = Some (PyInt (strlen page))
        /\ field "target_handle" (detail (fst r)) = Some (PyStr h)
        /\ field "input_target" (detail (fst r)) = Some target)
  /\ (forall e0 hs e1 h e2 page e3,
        driver w = Some e0 ->
        eng_window_handles eng e0 = (inr hs, e1) ->
        picked target hs e1 h ->
        eng_switch_to_window eng h e1 = (inr tt, e2) ->
        eng_page_source eng e2 = (inr page, e3) ->
        status (fst r) = "success" /\ data (fst r) = PyStr page).
Proof.
  intros Htarget. cbv zeta. destruct w as [d t].
  split; [| split ].
  - destruct target; try (contradiction Htarget; reflexivity);
      all_paths; commands;
      intros ev Hin Hcall; cbn [In] in Hin;
      repeat match type of Hin with
             | _ \/ _ => destruct Hin as [Hin | Hin]
             end;
      try contradiction Hin; subst ev; try discriminate Hcall;
      no_unit; cbn [driver];
      (eexists _, _, _, _, _);
      (split; [ reflexivity |]); (split; [ eassumption |]);
      (refine (conj _ (conj _ (conj eq_refl _)));
       [ is_picked | eassumption | as_answered; split; reflexivity ]).
  - destruct target; try (contradiction Htarget; reflexivity);
      all_paths; commands;
      intros Hs; try discriminate Hs;
      no_unit; cbn [driver];
      (eexists _, _, _, _, _, _, _);
      (split; [ reflexivity |]); (split; [ eassumption |]);
      (refine (conj _ (conj _ (conj _ (conj eq_refl _))));
       [ is_picked | eassumption | eassumption | repeat split; reflexivity ]).
  - intros e0 hs e1 h e2 page e3 Hd Hwh Hp Hsw Hps.
    cbn [driver] in Hd. subst d.
    assert (Hindex : forall i, as_int target = Some i ->
              0 <= i < len hs -> nth_error hs (Z.to_nat i) = Some h ->
              status
                (fst (get_specific_tab_page_content eng repr_str target
                        (mkWorld (Some e0) t)))
              = "success"
              /\ data
                   (fst (get_specific_tab_page_content eng repr_str target
                           (mkWorld (Some e0) t)))
                 = PyStr page).
    { intros i Hi Hrange Hnth.
      apply in_range_test in Hrange as Htest.
      assert (Hneg : Z.ltb i 0 = false) by (apply Z.ltb_ge; lia).
      destruct target as [| [|] | z | | |]; cbn [as_int] in Hi;
        try discriminate Hi;
        injection Hi as Hi; subst i;
        open_method; reduce; given Hwh;
        given Htest; repeat given Hneg; given Hnth; given Hsw; given Hps;
        split; reflexivity. }
    destruct target as [| [|] | i | s | l | dd];
      cbn [picked as_int as_str] in Hp;
      try (contradiction Htarget; reflexivity);
      try (destruct Hp as [Hrange Hnth];
           exact (Hindex _ eq_refl Hrange Hnth));
      try (destruct Hp as [Heq _]; discriminate Heq).
    destruct Hp as [Heq Hin]. inversion Heq. subst s.
    apply str_in_In in Hin.
    open_method. reduce. given Hwh. given Hin. given Hsw. given Hps.
    split; reflexivity.
Qed.

(** ** A session without a driver *)

(** A series of calls, one after the other, with their envelopes. *)
Fixpoint run_methods (ops : list op) (w : world E)
  : list envelope * world E :=
  match ops with
  | [] => ([], w)
  | o :: rest =>
      let (env, w1) := method_of eng repr_str o w in
      let (envs, w2) := run_methods rest w1 in
      (env :: envs, w2)
  end.

(** What a call returns once the driver is unset. *)
Definition refused (o : op) (env : envelope) : Prop :=
  match o with
  | QuitBrowser => code env = 200 /\ status env = "success"
  | _ => code env = 500 /\ status env = "failed"
  end.

(** X19.  Once the driver is unset it stays unset: whatever series of
    operations is called, the instance does not change and no command is
    sent; each call fails with code 500, except [quit_browser], which
    returns code 200. *)
Theorem no_driver_is_final (ops : list op) (w : world E) :
  driver w = None ->
  snd (run_methods ops w) = w
  /\ Forall2 refused ops (fst (run_methods ops w)).
Proof.
  intros Hd. induction ops as [| o rest IH]; cbn [run_methods].
  - split; [ reflexivity | constructor ].
  - destruct (without_driver eng repr_str o w Hd) as (Hsame & Hfail & Hquit).
    destruct (method_of eng repr_str o w) as [env w1].
    cbn [fst snd] in Hsame, Hfail, Hquit. subst w1.
    destruct IH as [IHw IHenv].
    destruct (run_methods rest w) as [envs w2].
    cbn [fst snd] in *. split; [ exact IHw |].
    constructor; [| exact IHenv ].
    unfold refused.
    destruct o;
      try (destruct Hfail as (Hc & Hs & _); [ discriminate | split; assumption ]).
    apply Hquit. reflexivity.
Qed.

(** ** Construction of the instance *)

(** The options object [_init_browser] builds. *)
Record FirefoxOptions : Type := mkOptions {
  binary_location : string;
  arguments : list string;
  preferences : list (string * pyval)
}.

Definition custom_user_agent : string :=
  "Mozilla/5.0 (Windows NT 10.0; Win64; x64; rv:121.0) Gecko/20100101 Firefox/121.0".

Definition firefox_options (firefox_binary_path : string) : FirefoxOptions :=
  mkOptions firefox_binary_path
    ["--user-agent=" ++ custom_user_agent; "--ignore-certificate-errors"]
    [("dom.webnotifications.enabled", PyBool false);
     ("dom.popup_maximum", PyInt (-1));
     ("browser.popups.showPopupBlocker", PyBool false);
     ("dom.disable_open_during_load", PyBool false);
     ("browser.link.open_newwindow", PyInt 3);
     ("browser.link.open_newwindow.restriction", PyInt 0)].

Section Construction.

(** [webdriver.Remote(command_executor=..., options=...)]: a driver in
    its first state, or an error; and the two settings made on it. *)
Variable remote : string -> FirefoxOptions -> outcome E.
Variable eng_set_page_load_timeout : Z -> E -> outcome unit * E.
Variable eng_implicitly_wait : Z -> E -> outcome unit * E.

(** [self.driver = webdriver.Remote(...)]. *)
Definition connect (command_executor : string) (options : FirefoxOptions)
  : M unit :=
  fun w =>
    match remote command_executor options with
    | inl x => (inl x, w)
    | inr e => (inr tt, mkWorld (Some e) (trace w))
    end.

(** A setting made on [self.driver]; the settings are not among the
    commands recorded. *)
Definition configure (attr : string) (f : E -> outcome unit * E) : M unit :=
  fun w =>
    match driver w with
    | None =>
        (inl (mkExn AttributeError
                ("'NoneType' object has no attribute '" ++ attr ++ "'")), w)
    | Some e => let (r, e') := f e in (r, mkWorld (Some e') (trace w))
    end.

(** [_init_browser]. *)
Definition _init_browser (command_executor firefox_binary_path : string)
  (page_load_timeout implicitly_wait : Z) : world E -> envelope * world E :=
  try_except
    (bind (connect command_executor (firefox_options firefox_binary_path))
       (fun _ =>
     bind (configure "set_page_load_timeout"
             (eng_set_page_load_timeout page_load_timeout))
       (fun _ =>
     bind (configure "implicitly_wait" (eng_implicitly_wait implicitly_wait))
       (fun _ =>
     ret (success_json "Browser initialized successfully" PyNone PyNone)))))
    (fun e =>
       returning
         (fail_json 500 ("Browser initialization failed: " ++ exn_str e)
            PyNone)).

(** [__init__]: the driver starts unset; the result of [_init_browser] is
    kept as [init_result] beside the instance. *)
Definition FirefoxAutoBrowser (command_executor firefox_binary_path : string)
  (page_load_timeout implicitly_wait : Z) : envelope * world E :=
  _init_browser command_executor firefox_binary_path page_load_timeout
    implicitly_wait (mkWorld None []).

(** X20.  The constructor leaves the driver unset exactly when the
    connection to the remote end fails.  Its result is the success
    envelope exactly when the connection and both timeout settings go
    through; when a setting fails after the connection was made, the
    result is a failure with code 500 although the driver is set. *)
Theorem constructor_result_and_driver
  (command_executor firefox_binary_path : string)
  (page_load_timeout implicitly_wait : Z) :
  let r := FirefoxAutoBrowser command_executor firefox_binary_path
             page_load_timeout implicitly_wait in
  let options := firefox_options firefox_binary_path in
  (driver (snd r) = None
   <-> exists x, remote command_executor options = inl x)
  /\ (forall x, remote command_executor options = inl x ->
      fst r = fail_json 500 ("Browser initialization failed: " ++ exn_str x)
                PyNone)
  /\ (code (fst r) = 200
      <-> exists e0 e1 e2,
            remote command_executor options = inr e0
            /\ eng_set_page_load_timeout page_load_timeout e0 = (inr tt, e1)
            /\ eng_implicitly_wait implicitly_wait e1 = (inr tt, e2)
            /\ driver (snd r) = Some e2)
  /\ (code (fst r) = 200 \/ code (fst r) = 500)
  /\ trace (snd r) = [].
Proof.
  cbv zeta. unfold FirefoxAutoBrowser, _init_browser, connect, configure.
  reduce.
  destruct (remote command_executor (firefox_options firefox_binary_path))
    as [x | e0]; reduce;
    [| destruct (eng_set_page_load_timeout page_load_timeout e0)
         as [[x | []] e1] eqn:Hplt; reduce;
       [| destruct (eng_implicitly_wait implicitly_wait e1)
            as [[x | []] e2] eqn:Hiw; reduce ] ].
  all: repeat split; auto.
  all: try (intros; discriminate).
  all: try (intros [y Hy]; discriminate Hy).
  all: try (intros y Hy; inversion Hy; reflexivity).
  all: try (intros _; eexists; reflexivity).
  all: try (intros (a & b & c & Ha & Hb & Hc & _);
            first
              [ discriminate Ha
              | inversion Ha; subst a; rewrite Hplt in Hb;
                first
                  [ discriminate Hb
                  | inversion Hb; subst b; rewrite Hiw in Hc;
                    discriminate Hc ] ]).
  intros _. exists e0, e1, e2. repeat split; assumption.
Qed.

End Construction.

End Methods.

(** ** The further properties on concrete sessions *)

(** The reference browser with a driver that refuses to quit. *)
Definition refusing_quit : Engine ref_browser :=
  mkEngine ref_browser
    ref_window_handles ref_current_window_handle ref_switch_to_window
    ref_get ref_page_source ref_execute_script ref_find_element
    ref_click ref_close
    (fun b => (inl (mkExn WebDriverException (selenium_str "quit refused")), b)).

(** A remote end that is reached only under one address. *)
Definition reach (command_executor : string) (options : FirefoxOptions)
  : outcome ref_browser :=
  if String.eqb command_executor "http://192.168.100.4:4444"
  then inr (mkRef ["A"] (Some "A") 0 EmptyString [])
  else inl (mkExn WebDriverException (selenium_str "connection refused")).

(** A driver that accepts every timeout setting. *)
Definition accept_setting (seconds : Z) (b : ref_browser)
  : outcome unit * ref_browser := (inr tt, b).

(** A driver that rejects a negative timeout. *)
Definition reject_negative (seconds : Z) (b : ref_browser)
  : outcome unit * ref_browser :=
  if Z.ltb seconds 0
  then (inl (mkExn WebDriverException (selenium_str "invalid argument")), b)
  else (inr tt, b).

Lemma listing_two_tabs :
  code (fst (get_all_tabs ref_engine two_tabs)) = 200
  /\ data (fst (get_all_tabs ref_engine two_tabs))
     = PyList [PyStr "A"; PyStr "B"]
  /\ field "total_tabs" (detail (fst (get_all_tabs ref_engine two_tabs)))
     = Some (PyInt 2).
Proof.
  destruct (get_all_tabs_lists_every_handle ref_engine two_tabs
              _ _ _ eq_refl eq_refl) as (H1 & H2 & H3 & _).
  repeat split; assumption.
Defined.

Lemma one_of_two_tabs_marked :
  exists infos,
    field "tabs_info" (detail (fst (get_all_tabs ref_engine two_tabs)))
    = Some (PyList infos)
    /\ List.length (filter marked_active infos) = 1%nat.
Proof.
  destruct (get_all_tabs_marks_the_current_tab ref_engine two_tabs
              _ _ _ _ "A" eq_refl eq_refl eq_refl) as (infos & Hf & _ & Hone).
  exists infos. split; [ exact Hf |].
  apply Hone.
  - discriminate.
  - repeat constructor; cbn; intuition discriminate.
  - left. reflexivity.
Defined.

Lemma active_tab_of_two :
  exists n,
    code (fst (get_active_tab ref_engine plain_repr two_tabs)) = 200
    /\ data (fst (get_active_tab ref_engine plain_repr two_tabs)) = PyStr "A"
    /\ field "active_tab_index"
         (detail (fst (get_active_tab ref_engine plain_repr two_tabs)))
       = Some (PyInt (Z.of_nat n)).
Proof.
  destruct (get_active_tab_reports_first_position ref_engine plain_repr
              two_tabs _ _ _ "A" ["A"; "B"] eq_refl eq_refl eq_refl)
    as (Hin & _ & _).
  destruct (Hin (or_introl eq_refl)) as (n & H1 & H2 & _ & H4 & _).
  exists n. repeat split; assumption.
Defined.

Lemma switching_to_unknown_handle :
  fst (switch_to_specific_tab ref_engine plain_repr (PyStr "Z") two_tabs)
  = fail_json 500
      "Failed to switch to specific tab: Tab handle Z is invalid, not in the current tab list"
      (PyDict [("input_target", PyStr "Z")])
  /\ events_of two_tabs
       (snd (switch_to_specific_tab ref_engine plain_repr (PyStr "Z")
               two_tabs))
     = [mkEvent CWindowHandles None].
Proof.
  apply (proj2 (switch_by_handle ref_engine plain_repr "Z" two_tabs
                  _ _ _ eq_refl eq_refl)).
  cbn. intuition discriminate.
Defined.

Lemma switching_to_second_then_asking :
  code (fst (switch_to_specific_tab ref_engine plain_repr (PyInt 1) two_tabs))
  = 200
  /\ data (fst (get_active_tab ref_engine plain_repr
                  (snd (switch_to_specific_tab ref_engine plain_repr
                          (PyInt 1) two_tabs))))
     = PyStr "B".
Proof.
  destruct (switch_then_get_active_tab ref_engine plain_repr rb_tabs
              rb_current ref_tab_model (PyInt 1) two_tabs _ "B" eq_refl)
    as (H1 & _ & _ & H4).
  - discriminate.
  - split; [ lia | reflexivity ].
  - split; assumption.
Defined.

Lemma opening_an_empty_address :
  open_url_in_specific_tab ref_engine plain_repr (PyStr EmptyString)
    (PyInt 0) two_tabs
  = (fail_json 500
       "Failed to open web page in specific tab: Invalid web page address"
       (PyDict [("target_tab", PyInt 0); ("input_url", PyStr EmptyString)]),
     two_tabs).
Proof.
  apply (open_url_rejects_bad_address ref_engine plain_repr
           (PyStr EmptyString) (PyInt 0) two_tabs _ eq_refl).
  right. reflexivity.
Defined.

Lemma opening_in_a_missing_tab :
  open_url_in_specific_tab ref_engine plain_repr (PyStr "https://example.com")
    (PyInt 5) two_tabs
  = (fail_json 500
       "Failed to open web page in specific tab: Failed to switch to specific tab: Tab index 5 is invalid, only 2 tabs exist currently (index 0~1)"
       (PyDict [("target_tab", PyInt 5);
                ("input_url", PyStr "https://example.com")]),
     snd (switch_to_specific_tab ref_engine plain_repr (PyInt 5) two_tabs)).
Proof.
  apply (proj1 (open_url_is_switch_then_get ref_engine plain_repr
                  "https://example.com" (PyInt 5) two_tabs
                  ltac:(discriminate))).
  - discriminate.
  - discriminate.
Defined.

Lemma scrolling_by_500 :
  events_of two_tabs
    (snd (scroll_mouse_wheel_down ref_engine plain_repr (PyInt 500) PyNone
            two_tabs))
  = [mkEvent (CExecuteScript "window.scrollBy(0, 500);" []) None]
  /\ events_of two_tabs
       (snd (scroll_mouse_wheel_up ref_engine plain_repr (PyInt 500) PyNone
               two_tabs))
     = [mkEvent (CExecuteScript "window.scrollBy(0, -500);" []) None].
Proof.
  destruct (scroll_sends_one_script ref_engine plain_repr (PyInt 500)
              two_tabs _ eq_refl) as (H1 & _ & H3 & _).
  split; assumption.
Defined.

Lemma scrolling_in_a_missing_tab :
  code (fst (scroll_mouse_wheel_down ref_engine plain_repr (PyInt 500)
               (PyInt 5) two_tabs)) = 500
  /\ snd (scroll_mouse_wheel_down ref_engine plain_repr (PyInt 500) (PyInt 5)
            two_tabs)
     = snd (switch_to_specific_tab ref_engine plain_repr (PyInt 5) two_tabs).
Proof.
  destruct (scroll_stops_at_failed_switch ref_engine plain_repr (PyInt 500)
              (PyInt 5) two_tabs) as [H _].
  - discriminate.
  - discriminate.
  - discriminate.
  - rewrite H. split; reflexivity.
Defined.

Lemma clicking_with_unknown_strategy :
  code (fst (click_element ref_engine plain_repr (PyStr "//a")
               (PyStr "text") PyNone two_tabs)) = 500
  /\ snd (click_element ref_engine plain_repr (PyStr "//a") (PyStr "text")
            PyNone two_tabs)
     = two_tabs.
Proof.
  destruct (proj1 (click_element_checks_arguments_first ref_engine plain_repr
                     (PyStr "//a") (PyStr "text") PyNone two_tabs _ eq_refl))
    as (H1 & _ & H3).
  - left. reflexivity.
  - split; assumption.
Defined.

Lemma clicking_a_link_by_xpath :
  exists pre value el e1,
    as_str (PyStr "//a") = Some value
    /\ events_of two_tabs
         (snd (click_element_by_xpath ref_engine plain_repr (PyStr "//a")
                 PyNone two_tabs))
       = (pre ++ [mkEvent (CFindElement By_XPATH value) None;
                  mkEvent (CClick el) None])%list
    /\ Forall switch_command pre
    /\ (PyNone = PyNone -> pre = [])
    /\ fst (eng_find_element ref_engine By_XPATH value e1) = inr el.
Proof.
  apply (click_by_xpath_commands ref_engine plain_repr (PyStr "//a") PyNone
           two_tabs).
  reflexivity.
Defined.

Lemma clicking_a_link :
  exists pre value el e1 name by_,
    as_str (PyStr "//a") = Some value
    /\ events_of two_tabs
         (snd (click_element ref_engine plain_repr (PyStr "//a")
                 (PyStr "xpath") PyNone two_tabs))
       = (pre ++ [mkEvent (CFindElement by_ value) None;
                  mkEvent
                    (CExecuteScript
                       "arguments[0].scrollIntoView({behavior: 'smooth', block: 'center'});"
                       [el]) None;
                  mkEvent (CClick el) None])%list
    /\ Forall switch_command pre
    /\ (PyNone = PyNone -> pre = [])
    /\ fst (eng_find_element ref_engine by_ value e1) = inr el
    /\ PyStr "xpath" = PyStr name
    /\ locator_get name supported_locators = Some by_.
Proof.
  apply (click_element_commands ref_engine plain_repr (PyStr "//a")
           (PyStr "xpath") PyNone two_tabs).
  reflexivity.
Defined.

Lemma clicking_in_a_missing_tab :
  code (fst (click_element ref_engine plain_repr (PyStr "//a") (PyStr "xpath")
               (PyInt 5) two_tabs)) = 500
  /\ code (fst (click_element_by_xpath ref_engine plain_repr (PyStr "//a")
                  (PyInt 5) two_tabs)) = 500.
Proof.
  destruct (click_stops_at_failed_switch ref_engine plain_repr "//a" "xpath"
              By_XPATH (PyInt 5) two_tabs) as [H1 H2].
  - discriminate.
  - discriminate.
  - reflexivity.
  - discriminate.
  - discriminate.
  - rewrite H1, H2. split; reflexivity.
Defined.

Lemma closing_second_of_two :
  exists h,
    before_close None
      (events_of two_tabs
         (snd (close_specific_tab ref_engine plain_repr (PyInt 1) two_tabs)))
    = Some (Some (mkEvent (CSwitchToWindow h) None))
    /\ nth_error ["A"; "B"] 1 = Some h.
Proof.
  destruct (close_only_after_switch_to_target ref_engine plain_repr (PyInt 1)
              two_tabs _ _ _ eq_refl eq_refl) as (_ & Hprev & _).
  destruct (Hprev _ eq_refl) as (h & Hh & _ & Hnth).
  exists h. split; [| exact Hnth ].
  inversion Hh. reflexivity.
Defined.

Lemma closing_a_missing_tab :
  code (fst (close_specific_tab ref_engine plain_repr (PyInt 5) two_tabs))
  = 500
  /\ events_of two_tabs
       (snd (close_specific_tab ref_engine plain_repr (PyInt 5) two_tabs))
     = [mkEvent CWindowHandles None].
Proof.
  destruct (close_rejects_without_closing ref_engine plain_repr (PyInt 5)
              two_tabs _ _ _ eq_refl eq_refl) as (H1 & _ & H3 & _).
  - right. cbn. lia.
  - split; assumption.
Defined.

Lemma quitting_a_refusing_driver :
  code (fst (quit_browser refusing_quit two_tabs)) = 500
  /\ driver (snd (quit_browser refusing_quit two_tabs)) = driver two_tabs.
Proof.
  destruct (failed_quit_keeps_driver refusing_quit two_tabs _ _ _
              eq_refl eq_refl) as [H _].
  rewrite H. split; reflexivity.
Defined.

Lemma creating_a_tab :
  events_of two_tabs (snd (create_new_tab ref_engine two_tabs))
  = [mkEvent (CExecuteScript "window.open('');" []) None]
  /\ code (fst (create_new_tab ref_engine two_tabs)) = 200.
Proof.
  destruct (create_new_tab_sends_one_script ref_engine two_tabs _ eq_refl)
    as (H1 & H2 & _).
  split; [ exact H1 | apply H2; reflexivity ].
Defined.

(** Reading the second of the two tabs of the reference browser. *)
Lemma reading_the_second_tab :
  events_of two_tabs
    (snd (get_specific_tab_page_content ref_engine plain_repr (PyInt 1)
            two_tabs))
  = [mkEvent CWindowHandles None; mkEvent (CSwitchToWindow "B") None;
     mkEvent CPageSource None]
  /\ data (fst (get_specific_tab_page_content ref_engine plain_repr
                  (PyInt 1) two_tabs))
     = PyStr "<html></html>"
  /\ field "content_length"
       (detail (fst (get_specific_tab_page_content ref_engine plain_repr
                       (PyInt 1) two_tabs)))
     = Some (PyInt 13).
Proof.
  destruct (content_of_target_tab ref_engine plain_repr (PyInt 1) two_tabs)
    as (_ & Hread & Hanswered).
  - discriminate.
  - destruct (Hanswered
                (mkRef ["A"; "B"] (Some "A") 0 "<html></html>" ["//a"])
                ["A"; "B"]
                (mkRef ["A"; "B"] (Some "A") 0 "<html></html>" ["//a"])
                "B"
                (mkRef ["A"; "B"] (Some "B") 0 "<html></html>" ["//a"])
                "<html></html>"
                (mkRef ["A"; "B"] (Some "B") 0 "<html></html>" ["//a"])
                eq_refl eq_refl)
      as [Hstatus Hdata].
    + cbn [picked as_int]. unfold len. cbn. split; [ lia | reflexivity ].
    + reflexivity.
    + reflexivity.
    + destruct (Hread Hstatus)
        as (e0 & hs & e1 & h & e2 & page & e3 & Hd & Hwh & Hp & _ & _ & Hev
            & _ & _ & Hpage & Hlen & _).
      inversion Hd. subst e0. inversion Hwh. subst hs e1.
      destruct Hp as [_ Hnth]. inversion Hnth. subst h.
      rewrite Hdata in Hpage. inversion Hpage. subst page.
      split; [ exact Hev |]. split; [ exact Hdata | exact Hlen ].
Defined.

Lemma calls_without_driver :
  snd (run_methods ref_engine plain_repr
         [GetAllTabs; QuitBrowser; CreateNewTab] invalidated)
  = invalidated
  /\ Forall2 refused [GetAllTabs; QuitBrowser; CreateNewTab]
       (fst (run_methods ref_engine plain_repr
               [GetAllTabs; QuitBrowser; CreateNewTab] invalidated)).
Proof.
  apply (no_driver_is_final ref_engine plain_repr
           [GetAllTabs; QuitBrowser; CreateNewTab] invalidated).
  reflexivity.
Defined.

Lemma constructing_with_rejected_timeout :
  code (fst (FirefoxAutoBrowser reach reject_negative accept_setting
               "http://192.168.100.4:4444" "firefox" (-1) 10))
  = 500
  /\ driver (snd (FirefoxAutoBrowser reach reject_negative accept_setting
                    "http://192.168.100.4:4444" "firefox" (-1) 10))
     <> None.
Proof.
  destruct (constructor_result_and_driver reach reject_negative
              accept_setting "http://192.168.100.4:4444" "firefox" (-1) 10)
    as (Hnone & _ & Hok & Hcode & _).
  split.
  - destruct Hcode as [Hc | Hc]; [| exact Hc ].
    destruct (proj1 Hok Hc) as (e0 & e1 & e2 & _ & Hset & _).
    destruct e0; discriminate Hset.
  - intros Hd. destruct (proj1 Hnone Hd) as [x Hx]. discriminate Hx.
Defined.
